(** * chart_creator: the data-to-chart pipeline of [create_chart]

    A shallow embedding of [src/chart_creator.py].  The pandas frame is a
    list of rows carrying their index label, the columns the script reads
    are record fields, and a number is the exact rational value of the
    double the script holds: the float operations that decide an outcome
    (the time span of line 91, the trend status of line 192) round their
    result to the nearest double with [fl], the rolling mean is taken
    exactly, and NaN prices are outside the model.  A [Date] is a day
    number on the
    proleptic Gregorian calendar, from which [year] and [month] are
    computed.  Python exceptions are values of an error monad, and the
    image file written by [plt.savefig] is an entry of an explicit file
    store. *)

From Stdlib Require Import List ZArith QArith Qabs Qminmax Qround Qpower.
From Stdlib Require Import Bool Lia String Ascii.
From Stdlib Require Import Permutation Sorted DecimalString Lqa.
Import ListNotations.

Local Open Scope Z_scope.

(** ** Python exceptions and the error monad *)

Inductive exn : Type :=
| IndexError             (* "single positional indexer is out-of-bounds" *)
| OverflowError          (* int() of a float infinity *)
| OutOfBoundsTimedelta   (* a time span beyond 64-bit nanoseconds *)
| OutOfBoundsDatetime.   (* a timestamp beyond 64-bit nanoseconds *)

Definition exn_name (e : exn) : string :=
  match e with
  | IndexError => "IndexError"
  | OverflowError => "OverflowError"
  | OutOfBoundsTimedelta => "OutOfBoundsTimedelta"
  | OutOfBoundsDatetime => "OutOfBoundsDatetime"
  end.

Inductive result (A : Type) : Type :=
| Ok (a : A)
| Raise (e : exn).

Arguments Ok {A} a.
Arguments Raise {A} e.

Definition ret {A : Type} (a : A) : result A := Ok a.

Definition bind {A B : Type} (m : result A) (k : A -> result B) : result B :=
  match m with
  | Ok a => k a
  | Raise e => Raise e
  end.

Notation "x <- m ;; k" := (bind m (fun x => k))
  (at level 61, m at next level, right associativity).

Fixpoint mapM {A B : Type} (f : A -> result B) (l : list A) : result (list B) :=
  match l with
  | [] => ret []
  | a :: l' => b <- f a ;; bs <- mapM f l' ;; ret (b :: bs)
  end.

(** ** Timestamps

    [pd.to_datetime] turns the Date column into timestamps.  A timestamp is
    modelled at day resolution as the number of days since 1970-01-01;
    [dt.year] and [dt.month] are read off the civil calendar. *)

Definition Timestamp : Type := Z.

(** Day number of the civil date [y]-[m]-[d]. *)
Definition ymd (y m d : Z) : Timestamp :=
  let y' := if m <=? 2 then y - 1 else y in
  let era := y' / 400 in
  let yoe := y' - era * 400 in
  let mp := if 2 <? m then m - 3 else m + 9 in
  let doy := (153 * mp + 2) / 5 + d - 1 in
  let doe := yoe * 365 + yoe / 4 - yoe / 100 + doy in
  era * 146097 + doe - 719468.

(** Civil date (year, month, day) of a day number. *)
Definition civil (t : Timestamp) : Z * Z * Z :=
  let z := t + 719468 in
  let era := z / 146097 in
  let doe := z - era * 146097 in
  let yoe := (doe - doe / 1460 + doe / 36524 - doe / 146096) / 365 in
  let doy := doe - (365 * yoe + yoe / 4 - yoe / 100) in
  let mp := (5 * doy + 2) / 153 in
  let d := doy - (153 * mp + 2) / 5 + 1 in
  let m := if mp <? 10 then mp + 3 else mp - 9 in
  let y := yoe + era * 400 + (if m <=? 2 then 1 else 0) in
  (y, m, d).

Definition year (t : Timestamp) : Z := fst (fst (civil t)).
Definition month (t : Timestamp) : Z := snd (fst (civil t)).
Definition day (t : Timestamp) : Z := snd (civil t).

Definition month_abbr : list string :=
  ["Jan"; "Feb"; "Mar"; "Apr"; "May"; "Jun";
   "Jul"; "Aug"; "Sep"; "Oct"; "Nov"; "Dec"]%string.

Definition newline : string := String (ascii_of_nat 10) EmptyString.

Definition str_of_Z (z : Z) : string := NilZero.string_of_int (Z.to_int z).

(** [dt.strftime('%b')] *)
Definition strftime_b (t : Timestamp) : string :=
  nth (Z.to_nat (month t - 1)) month_abbr ""%string.

(** [dt.strftime('%b\n%Y')] *)
Definition strftime_b_Y (t : Timestamp) : string :=
  (strftime_b t ++ newline ++ str_of_Z (year t))%string.

(** ** Frames *)

(** One record of the input table: the columns
    "Date","Time","Open","High","Low","Close","Vol","OI". *)
Record Bar : Type := mkBar {
  Date : Timestamp;
  Time : string;
  Open : Q;
  High : Q;
  Low : Q;
  Close : Q;
  Vol : Z;
  OI : Z
}.

(** A frame before the SMA column exists: index label and columns. *)
Definition RawFrame : Type := list (nat * Bar).

(** A row of the frame once the [SMA150] column is added; [None] is NaN. *)
Record Row : Type := mkRow {
  index : nat;
  bar : Bar;
  SMA : option Q
}.

Definition DataFrame : Type := list Row.

Definition len {A : Type} (l : list A) : Z := Z.of_nat (List.length l).

(** [s.iloc[i]]: positional access, negative positions count from the end,
    anything else raises IndexError. *)
Definition iloc {A : Type} (l : list A) (i : Z) : result A :=
  let j := if i <? 0 then len l + i else i in
  if (0 <=? j) && (j <? len l) then
    match nth_error l (Z.to_nat j) with
    | Some a => Ok a
    | None => Raise IndexError
    end
  else Raise IndexError.

(** [int(x)] on a finite float: truncation toward zero. *)
Definition int (x : Q) : Z := Z.quot (Qnum x) (Zpos (Qden x)).

(** ** Doubles

    A double is held as the rational it denotes.  [fl q] is [q] rounded to
    the nearest binary64 value, ties to even, with gradual underflow; a
    result of magnitude 2^1024 stands for an infinity. *)

(** The exponent [e] with [2^e <= q < 2^(e+1)], for [q > 0]. *)
Definition binade (q : Q) : Z :=
  let e0 := Z.log2 (Qnum q) - Z.log2 (Zpos (Qden q)) in
  if Qle_bool (2 ^ e0)%Q q then e0 else e0 - 1.

(** Rounding to the nearest integer, a half going to the even side. *)
Definition rne (x : Q) : Z :=
  let f := Qfloor x in
  match Qcompare (x - inject_Z f) (1 # 2) with
  | Lt => f
  | Gt => f + 1
  | Eq => if Z.even f then f else f + 1
  end.

(** The exponent of the unit in the last place: 53 significant bits, and
    2^-1074 at the least. *)
Definition ulp_exp (q : Q) : Z := Z.max (binade q - 52) (-1074).

Definition INF : Q := (2 ^ 1024)%Q.

Definition fl_pos (q : Q) : Q :=
  let k := ulp_exp q in
  let v := (inject_Z (rne (q / 2 ^ k)) * 2 ^ k)%Q in
  if Qle_bool INF v then INF else v.

Definition fl (q : Q) : Q :=
  match Qcompare q 0 with
  | Eq => 0%Q
  | Gt => fl_pos q
  | Lt => (- fl_pos (- q))%Q
  end.

(** ** SeriesPreparer: lines 76-95 *)

(** [pd.read_csv] (or the frame built from the download) labels the rows
    with a RangeIndex. *)
Definition from_rows (bars : list Bar) : RawFrame :=
  combine (seq 0 (List.length bars)) bars.

(** [df.sort_values('Date')]: rows travel with their index label.  Rows
    of equal date keep their input order here; pandas does not promise an
    order among them. *)
Fixpoint insert_by_Date (r : nat * Bar) (l : RawFrame) : RawFrame :=
  match l with
  | [] => [r]
  | h :: t =>
      if Date (snd r) <=? Date (snd h) then r :: l
      else h :: insert_by_Date r t
  end.

Fixpoint sort_values_Date (l : RawFrame) : RawFrame :=
  match l with
  | [] => []
  | r :: t => insert_by_Date r (sort_values_Date t)
  end.

(** The sort key of a row. *)
Definition key (p : nat * Bar) : Timestamp := Date (snd p).

Definition Qsum (l : list Q) : Q := fold_right Qplus 0%Q l.

Definition Qltb (x y : Q) : bool := negb (Qle_bool y x).

(** [Series.rolling(window=w).mean()], computed as pandas does: a running
    sum to which the entering value is added and from which the value
    leaving the window is removed; a position holds a mean once [w]
    observations are in the window and NaN before. *)
Fixpoint roll_mean (w i : nat) (sum_x : Q) (incoming outgoing : list Q)
  : list (option Q) :=
  match incoming with
  | [] => []
  | x :: rest =>
      let full := (w <=? i)%nat in
      let removed := if full then hd 0%Q outgoing else 0%Q in
      let outgoing' := if full then tl outgoing else outgoing in
      let sum_x' := (sum_x + x - removed)%Q in
      (if (w <=? S i)%nat then Some (sum_x' / inject_Z (Z.of_nat w))%Q else None)
        :: roll_mean w (S i) sum_x' rest outgoing'
  end.

Definition rolling_mean (w : nat) (xs : list Q) : list (option Q) :=
  roll_mean w 0 0%Q xs xs.

(** The arithmetic mean of the [w] values of [xs] that end at position [j],
    positions [j-w+1] through [j]. *)
Definition window_mean (w : nat) (xs : list Q) (j : nat) : Q :=
  (Qsum (firstn w (skipn (S j - w) xs)) / inject_Z (Z.of_nat w))%Q.

(** What one position of the rolling mean must hold. *)
Definition sma_ok (w : nat) (xs : list Q) (j : nat) (o : option Q) : Prop :=
  if (w <=? S j)%nat
  then exists s, o = Some s /\ (s == window_mean w xs j)%Q
  else o = None.

(** The invariant of [roll_mean] over the series [xs]: the running sum
    entering position [i] is the sum of the window that ends just before
    it. *)
Definition running (w : nat) (xs : list Q) (i : nat) (sum_x : Q)
  (incoming outgoing : list Q) : Prop :=
  incoming = skipn i xs /\
  outgoing = skipn (i - w) xs /\
  (sum_x == Qsum (firstn (Nat.min i w) (skipn (i - w) xs)))%Q.

Definition lookback_window : nat := 150.

(** [df['SMA150'] = df['Close'].rolling(window=w).mean()] *)
Definition add_sma (w : nat) (raw : RawFrame) : DataFrame :=
  map (fun p => mkRow (fst (fst p)) (snd (fst p)) (snd p))
      (combine raw (rolling_mean w (map (fun p => Close (snd p)) raw))).

(** [df['Date'].max()], [None] on an empty frame. *)
Definition Date_max (df : DataFrame) : option Timestamp :=
  match df with
  | [] => None
  | r :: t => Some (fold_left Z.max (map (fun r' => Date (bar r')) t) (Date (bar r)))
  end.

Definition NS_PER_DAY : Z := 86400000000000.
Definition INT64_MAX : Z := 9223372036854775807.

(** [years * 365] of line 91: [years] is the double that [float(sys.argv[2])]
    gave (or the integer 1). *)
Definition lookback_days (years : Q) : Q := fl (fl years * 365).

(** The seconds-to-nanoseconds product of [pd.Timedelta(days=d)]:
    [((d * 24) * 3600) * 1_000_000_000], each product a double. *)
Definition span_float (days : Q) : Q :=
  fl (fl (fl (days * 24) * 3600) * 1000000000).

(** The value of [pd.Timedelta(days=d)] in nanoseconds: [int(...)] of that
    product, the fraction of a nanosecond dropped. *)
Definition Timedelta_ns (days : Q) : Z := int (span_float days).

(** The cutoff [max - pd.Timedelta(days=years * 365)], in days. *)
Definition cutoff_date (max_date : Timestamp) (years : Q) : Q :=
  (inject_Z max_date
   - inject_Z (Timedelta_ns (lookback_days years)) / inject_Z NS_PER_DAY)%Q.

(** What line 91 raises.  The span must fit 64-bit nanoseconds (the least
    64-bit value is NaT, with which the comparison of line 92 keeps no
    row), and so must the cutoff timestamp. *)
Definition line_91 (max_date : Timestamp) (years : Q) : result unit :=
  let x := span_float (lookback_days years) in
  if Qle_bool INF (Qabs x) then Raise OverflowError
  else
    let ns := int x in
    if (ns <? - INT64_MAX - 1) || (INT64_MAX <? ns) then Raise OutOfBoundsTimedelta
    else if ns =? - INT64_MAX - 1 then Ok tt
    else
      let c := max_date * NS_PER_DAY - ns in
      if (c <? - INT64_MAX) || (INT64_MAX <? c) then Raise OutOfBoundsDatetime
      else Ok tt.

Definition after (cutoff : Q) (d : Timestamp) : bool :=
  Qltb cutoff (inject_Z d).

(** Lines 90-92: [if not df.empty: ... df = df[df['Date'] > cutoff_date]]. *)
Definition lookback_filter (years : Q) (df : DataFrame) : DataFrame :=
  match Date_max df with
  | None => df
  | Some m => filter (fun r => after (cutoff_date m years) (Date (bar r))) df
  end.

(** The look-back step keeps the rows that pass one test on the date. *)
Definition kept (years : Q) (df : DataFrame) (d : Timestamp) : bool :=
  match Date_max df with
  | None => true
  | Some m => after (cutoff_date m years) d
  end.

(** [df.reset_index(drop=True)] *)
Definition reset_index (df : DataFrame) : DataFrame :=
  map (fun p => mkRow (fst p) (bar (snd p)) (SMA (snd p)))
      (combine (seq 0 (List.length df)) df).

Definition prepare_w (w : nat) (raw : RawFrame) (years : Q) : DataFrame :=
  reset_index (lookback_filter years (add_sma w raw)).

(** Lines 83-95 on the sorted frame. *)
Definition prepare_frame (raw : RawFrame) (years : Q) : DataFrame :=
  prepare_w lookback_window raw years.

(** The prepared series of an input bar sequence: the frame that line 95
    leaves whenever line 91 does not raise. *)
Definition prepare (bars : list Bar) (years : Q) : DataFrame :=
  prepare_frame (sort_values_Date (from_rows bars)) years.

(** Lines 83-95 as they run: on a frame that is not empty line 91 may
    raise; otherwise the frame of [prepare_frame] is built. *)
Definition prepare_frame_run (raw : RawFrame) (years : Q) : result DataFrame :=
  match Date_max (add_sma lookback_window raw) with
  | None => Ok (prepare_frame raw years)
  | Some m => _ <- line_91 m years ;; Ok (prepare_frame raw years)
  end.

Definition prepare_run (bars : list Bar) (years : Q) : result DataFrame :=
  prepare_frame_run (sort_values_Date (from_rows bars)) years.

(** The latest date of a table, [None] when it has no row. *)
Definition latest (bars : list Bar) : option Timestamp :=
  match bars with
  | [] => None
  | b :: t => Some (fold_left Z.max (map Date t) (Date b))
  end.

(** The test of line 92 on a bar of the table [bars]. *)
Definition retained (bars : list Bar) (years : Q) (b : Bar) : bool :=
  match latest bars with
  | None => true
  | Some m => after (cutoff_date m years) (Date b)
  end.

(** ** CandleClassifier: lines 107-108 *)

Definition is_up (r : Row) : bool := Qle_bool (Open (bar r)) (Close (bar r)).
Definition is_down (r : Row) : bool := Qltb (Close (bar r)) (Open (bar r)).

Definition up (df : DataFrame) : DataFrame := filter is_up df.
Definition down (df : DataFrame) : DataFrame := filter is_down df.

(** ** AxisLabeler: lines 158-179 *)

Definition Dates (df : DataFrame) : list Timestamp :=
  map (fun r => Date (bar r)) df.

(** The tick formatter.  The test of line 162 is the conditional expression
    [(dt.month == 1 and prev.year != dt.year) if idx > 0 else True]. *)
Definition date_fmt (df : DataFrame) (x : Q) : result string :=
  let idx := int x in
  if (0 <=? idx) && (idx <? len df) then
    dt <- iloc (Dates df) idx ;;
    show_year <-
      (if 0 <? idx then
         if month dt =? 1 then
           prev <- iloc (Dates df) (idx - 1) ;;
           ret (negb (year prev =? year dt))
         else ret false
       else ret true) ;;
    if (show_year : bool) then ret (strftime_b_Y dt) else ret (strftime_b dt)
  else ret ""%string.

(** Whether the label at position [i], dated [dt], carries the year: the
    value of the test of line 162. *)
Definition shows_year (dates : list Timestamp) (i : nat) (dt : Timestamp) : bool :=
  match i with
  | O => true
  | S j => (month dt =? 1) && negb (year (nth j dates 0) =? year dt)
  end.

(** [range(a, b)] *)
Definition range (a b : Z) : list Z :=
  map Z.of_nat (seq (Z.to_nat a) (Z.to_nat b - Z.to_nat a)).

(** The loop of lines 172-174 over the indices [idxs], appending to
    [month_starts]. *)
Fixpoint month_scan (dates : list Timestamp) (idxs : list Z) (month_starts : list Z)
  : result (list Z) :=
  match idxs with
  | [] => ret month_starts
  | i :: rest =>
      a <- iloc dates i ;;
      b <- iloc dates (i - 1) ;;
      month_scan dates rest
        (if negb (month a =? month b) then month_starts ++ [i] else month_starts)
  end.

(** The test of line 173 at index [i]. *)
Definition month_changes (dates : list Timestamp) (i : Z) : bool :=
  negb (month (nth (Z.to_nat i) dates 0) =? month (nth (Z.to_nat (i - 1)) dates 0)).

(** [i] is a month boundary of the series: it has a predecessor and
    [month(date[i]) <> month(date[i-1])]. *)
Definition month_boundary (df : DataFrame) (i : Z) : Prop :=
  1 <= i < len df /\
  month (nth (Z.to_nat i) (Dates df) 0) <> month (nth (Z.to_nat (i - 1)) (Dates df) 0).

(** Lines 171-177. *)
Definition month_ticks (df : DataFrame) : result (list Z) :=
  month_starts <- month_scan (Dates df) (range 1 (len df)) [] ;;
  ret (match month_starts with
       | [] => 0 :: month_starts
       | first :: _ => if 20 <? first then 0 :: month_starts else month_starts
       end).

(** ** TrendClassifier: lines 188-201 *)

Definition UP_COLOR : string := "#15ff25".
Definition DOWN_COLOR : string := "#ff8486".
Definition ON_COLOR : string := "#ffff00".

Definition str_of_nat (n : nat) : string := NilZero.string_of_uint (Nat.to_uint n).

Definition status_label (name : string) : string :=
  (name ++ " (" ++ str_of_nat lookback_window ++ ") SMA")%string.

(** Line 192 on the doubles of the last row, the subtraction and the
    division each rounded. *)
Definition diff_pct (last_close last_sma : Q) : Q :=
  fl (fl (fl last_close - fl last_sma) / fl last_sma).

(** The double that the literal [0.005] denotes. *)
Definition lit_0_005 : Q := fl (5 # 1000).

(** [(status_text, status_color)] after line 201; [None] is a NaN average.
    A division by a zero average gives an infinity of the sign of the
    close, or NaN for 0/0, with which both comparisons fail. *)
Definition status (last_close : Q) (last_sma : option Q) : string * string :=
  match last_sma with
  | None => (""%string, UP_COLOR)
  | Some sma =>
      if Qeq_bool (fl sma) 0 then
        if Qltb (fl last_close) 0 then (status_label "Below", DOWN_COLOR)
        else (status_label "Above", UP_COLOR)
      else
        let d := diff_pct last_close sma in
        if Qltb d (- lit_0_005)%Q then (status_label "Below", DOWN_COLOR)
        else if Qle_bool (Qabs d) lit_0_005 then (status_label "On", ON_COLOR)
        else (status_label "Above", UP_COLOR)
  end.

(** ** ChartRenderer *)

(** What the figure holds when it is saved. *)
Record Figure : Type := mkFigure {
  up_candles : DataFrame;
  down_candles : DataFrame;
  sma_line : list (nat * option Q);
  xticks : list Z;
  xticklabels : list string;
  symbol_text : string;
  indicator : option (string * string)
}.

Definition nonempty (s : string) : bool :=
  match s with
  | EmptyString => false
  | String _ _ => true
  end.

(** Lines 97-222 and the labels the formatter gives the ticks when the
    figure is drawn.  The plotting calls are taken to accept any frame. *)
Definition compose (df : DataFrame) (symbol : string) : result Figure :=
  let up_rows := up df in
  let down_rows := down df in
  month_starts <- month_ticks df ;;
  last_c <- iloc df (-1) ;;
  last_s <- iloc df (-1) ;;
  let st := status (Close (bar last_c)) (SMA last_s) in
  labels <- mapM (date_fmt df) (map inject_Z month_starts) ;;
  ret {| up_candles := up_rows;
         down_candles := down_rows;
         sma_line := map (fun r => (index r, SMA r)) df;
         xticks := month_starts;
         xticklabels := labels;
         symbol_text := symbol;
         indicator := if nonempty (fst st) then Some st else None |}.

(** ** The whole run *)

(** What loading the data gave (lines 25-81). *)
Inductive source : Type :=
| CsvRows (bars : list Bar)       (* the file exists and was read *)
| CsvError                        (* reading raised: reported at line 80 *)
| Downloaded (bars : list Bar)    (* the file is absent, yfinance answered *)
| DownloadError.                  (* the download raised: reported at line 65 *)

Definition load (src : source) : option RawFrame :=
  match src with
  | CsvRows bars => Some (sort_values_Date (from_rows bars))
  | CsvError => None
  | Downloaded [] => None                                    (* yf_data.empty *)
  | Downloaded bars => Some (sort_values_Date (from_rows bars))
  | DownloadError => None
  end.

(** The image files written so far, newest first. *)
Definition Files : Type := list (string * Figure).

Inductive outcome : Type :=
| Returned
| Raised (e : exn).

Definition create_chart (src : source) (years : Q) (symbol output_file : string)
  (fs : Files) : Files * outcome :=
  match load src with
  | None => (fs, Returned)
  | Some raw =>
      match df <- prepare_frame_run raw years ;; compose df symbol with
      | Ok fig => ((output_file, fig) :: fs, Returned)     (* plt.savefig *)
      | Raise e => (fs, Raised e)
      end
  end.

(** The series the run works on, when loading gave one and line 91 did not
    raise. *)
Definition series_of (src : source) (years : Q) : option DataFrame :=
  match load src with
  | None => None
  | Some raw =>
      match prepare_frame_run raw years with
      | Ok df => Some df
      | Raise _ => None
      end
  end.

(** ** The output file name: lines 20-21 *)

(** [p.rfind(c)]: the last position at which [c] occurs, -1 when it does
    not occur. *)
Fixpoint rfind (c : ascii) (p : string) : Z :=
  match p with
  | EmptyString => -1
  | String a t =>
      let r := rfind c t in
      if 0 <=? r then r + 1 else if Ascii.eqb a c then 0 else -1
  end.

(** The slices [p[:n]] and [p[n:]]. *)
Fixpoint take (n : nat) (p : string) : string :=
  match n, p with
  | S n', String a t => String a (take n' t)
  | _, _ => EmptyString
  end.

Fixpoint drop (n : nat) (p : string) : string :=
  match n, p with
  | S n', String _ t => drop n' t
  | _, _ => p
  end.

(** The loop of [os.path.splitext] that skips the dots leading the file
    name: the first other character before [dotIndex] makes the split
    valid; a name made of leading dots only has no extension. *)
Fixpoint skip_leading_dots (p : string) (filenameIndex : Z) (steps : nat)
  (dotIndex : Z) : string * string :=
  match steps with
  | O => (p, EmptyString)
  | S steps' =>
      match String.get (Z.to_nat filenameIndex) p with
      | Some "."%char => skip_leading_dots p (filenameIndex + 1) steps' dotIndex
      | _ => (take (Z.to_nat dotIndex) p, drop (Z.to_nat dotIndex) p)
      end
  end.

(** [os.path.splitext(p)] of posixpath: (root, ext). *)
Definition splitext (p : string) : string * string :=
  let sepIndex := rfind "/" p in
  let dotIndex := rfind "." p in
  if sepIndex <? dotIndex then
    skip_leading_dots p (sepIndex + 1) (Z.to_nat (dotIndex - (sepIndex + 1))) dotIndex
  else (p, EmptyString).

(** [output_file = f"{base_name}_chart.png"] *)
Definition output_file_of (data_file : string) : string :=
  (fst (splitext data_file) ++ "_chart.png")%string.

(** A string without the character [c]. *)
Definition free_of (c : ascii) (s : string) : Prop :=
  forall n, String.get n s <> Some c.

(** The number of bars of the date-sorted input that the look-back filter
    drops from its front. *)
Definition dropped (bars : list Bar) (years : Q) : nat :=
  List.length (sort_values_Date (from_rows bars)) - List.length (prepare bars years).

(** ** Sample data *)

(** A bar dated [d] that opens at [o] and closes at [c]. *)
Definition quote (d : Timestamp) (o c : Q) : Bar :=
  mkBar d "00:00:00" o (Qmax o c) (Qmin o c) c 1000 0.

(** [n] flat bars on consecutive days from [start]. *)
Definition daily (start : Timestamp) (n : nat) : list Bar :=
  map (fun i => quote (start + Z.of_nat i) 1 1) (seq 0 n).

(** A table in which the row of 2024-03-15 appears twice. *)
Definition repeated_row : list Bar :=
  [quote (ymd 2024 3 15) 10 11; quote (ymd 2024 3 15) 10 11].

(** Two bars out of date order. *)
Definition two_days : list Bar :=
  [quote (ymd 2024 3 18) 11 12; quote (ymd 2024 3 15) 10 11].

(** Forty daily bars from 2024-01-12: February starts at index 20. *)
Definition forty_days : list Bar := daily (ymd 2024 1 12) 40.

(** Daily bars from 2023-01-01 to 2024-05-30. *)
Definition daily_from_2023 : list Bar := daily (ymd 2023 1 1) 516.

(** The last row of the series prepared from [daily_from_2023] with a one-year
    look-back. *)
Definition last_row : Row :=
  mkRow 364 (quote (ymd 2024 5 30) 1 1) (Some (150 # 150)%Q).

(** * Properties *)

Example ymd_epoch : ymd 1970 1 1 = 0.
Proof. reflexivity. Qed.

Example civil_leap_day : civil (ymd 2024 2 29) = (2024, 2, 29).
Proof. reflexivity. Qed.

Example civil_new_year : civil (ymd 2023 12 31 + 1) = (2024, 1, 1).
Proof. reflexivity. Qed.

Example strftime_jan :
  strftime_b_Y (ymd 2024 1 2) = ("Jan" ++ newline ++ "2024")%string.
Proof. reflexivity. Qed.

(** The spec's boundary cases of the trend status. *)
Example status_just_inside :
  status 100 (Some (1005 # 10)%Q) = (status_label "On", ON_COLOR).
Proof. reflexivity. Qed.

Example status_below :
  status 99 (Some 100%Q) = ("Below (150) SMA"%string, DOWN_COLOR).
Proof. reflexivity. Qed.

Example status_on_boundary :
  status (1005 # 10) (Some 100%Q) = ("On (150) SMA"%string, ON_COLOR).
Proof. reflexivity. Qed.

Example status_rounds_below :
  status (995 # 1000) (Some 1%Q) = ("Below (150) SMA"%string, DOWN_COLOR).
Proof. vm_compute. reflexivity. Qed.

Example status_zero_average :
  status 0 (Some 0%Q) = ("Above (150) SMA"%string, UP_COLOR).
Proof. vm_compute. reflexivity. Qed.

(** The double of the literal 0.005 is 5764607523034235 * 2^-60. *)
Example literal_0_005 :
  (lit_0_005 == 5764607523034235 # 1152921504606846976)%Q.
Proof. vm_compute. reflexivity. Qed.

Example timedelta_one_year :
  Timedelta_ns (lookback_days 1) = 365 * NS_PER_DAY.
Proof. vm_compute. reflexivity. Qed.

Example timedelta_below_a_nanosecond :
  Timedelta_ns (lookback_days (1 # 1000000000000000000)) = 0.
Proof. vm_compute. reflexivity. Qed.

Example rolling_mean_3 :
  rolling_mean 3 [1; 2; 3; 4; 5]%Q
  = [None; None; Some (6 # 3); Some (9 # 3); Some (12 # 3)]%Q.
Proof. reflexivity. Qed.

(** Seventy daily bars from 2024-01-01: the months change at positions 31
    and 60, and the first change being past position 20, 0 is a tick too. *)
Example ticks_of_seventy_days :
  month_ticks (prepare (daily (ymd 2024 1 1) 70) 1) = Ok [0; 31; 60].
Proof. vm_compute. reflexivity. Qed.

Example splitext_plain : splitext "tqqq.txt" = ("tqqq", ".txt")%string.
Proof. reflexivity. Qed.

Example splitext_hidden : splitext "data/.hidden" = ("data/.hidden", "")%string.
Proof. reflexivity. Qed.

Example splitext_dotted_dir : splitext "runs.old/tqqq" = ("runs.old/tqqq", "")%string.
Proof. reflexivity. Qed.

Example output_file_in_dir :
  output_file_of "data/tqqq.txt" = "data/tqqq_chart.png"%string.
Proof. reflexivity. Qed.

Example int_trunc : int (-3 # 2) = -1 /\ int (3 # 2) = 1 /\ int (-1 # 2) = 0.
Proof. repeat split. Qed.

(** ** Positional access *)

Section Iloc.
Context {A : Type}.
Implicit Types (l : list A) (i : Z).

Lemma iloc_in_range l i :
  0 <= i < len l ->
  exists a, nth_error l (Z.to_nat i) = Some a /\ iloc l i = Ok a.
Proof.
  intros Hi. unfold iloc.
  replace (i <? 0) with false by (symmetry; apply Z.ltb_ge; lia).
  replace (0 <=? i) with true by (symmetry; apply Z.leb_le; lia).
  replace (i <? len l) with true by (symmetry; apply Z.ltb_lt; lia).
  cbn [andb].
  destruct (nth_error l (Z.to_nat i)) as [a|] eqn:E.
  - now exists a.
  - apply nth_error_None in E. unfold len in Hi. lia.
Qed.

Lemma iloc_nat l (n : nat) a :
  nth_error l n = Some a -> iloc l (Z.of_nat n) = Ok a.
Proof.
  intros E.
  assert (n < List.length l)%nat by (apply nth_error_Some; congruence).
  destruct (iloc_in_range l (Z.of_nat n)) as (a' & E' & ->).
  - unfold len. lia.
  - rewrite Nat2Z.id in E'. congruence.
Qed.

Lemma iloc_minus1 l a :
  nth_error l (List.length l - 1) = Some a -> iloc l (-1) = Ok a.
Proof.
  intros E.
  assert (List.length l - 1 < List.length l)%nat
    by (apply nth_error_Some; congruence).
  unfold iloc. cbn [Z.ltb Z.compare].
  replace (0 <=? len l + -1) with true
    by (symmetry; apply Z.leb_le; unfold len; lia).
  replace (len l + -1 <? len l) with true by (symmetry; apply Z.ltb_lt; lia).
  cbn [andb].
  replace (Z.to_nat (len l + -1)) with (List.length l - 1)%nat
    by (unfold len; lia).
  now rewrite E.
Qed.
End Iloc.

(** ** Index labels *)

Lemma reset_index_from (df : DataFrame) (s : nat) :
  map index (map (fun p => mkRow (fst p) (bar (snd p)) (SMA (snd p)))
                 (combine (seq s (List.length df)) df))
  = seq s (List.length df).
Proof.
  revert s. induction df as [|r df IH]; intros s; cbn.
  - reflexivity.
  - f_equal. apply IH.
Qed.

Lemma reset_index_columns (df : DataFrame) :
  map bar (reset_index df) = map bar df /\ map SMA (reset_index df) = map SMA df.
Proof.
  unfold reset_index. generalize 0%nat.
  induction df as [|r df IH]; intros s; cbn.
  - now split.
  - destruct (IH (S s)) as [-> ->]. now split.
Qed.

Lemma reset_index_length (df : DataFrame) :
  List.length (reset_index df) = List.length df.
Proof.
  rewrite <- (length_map bar), (proj1 (reset_index_columns df)). apply length_map.
Qed.

Lemma reset_index_labels (df : DataFrame) :
  map index (reset_index df) = seq 0 (List.length (reset_index df)).
Proof.
  rewrite reset_index_length. apply reset_index_from.
Qed.

Lemma reset_index_position (df : DataFrame) (i : nat) (r : Row) :
  nth_error (reset_index df) i = Some r -> index r = i.
Proof.
  intros E.
  assert (L : (i < List.length (reset_index df))%nat)
    by (apply nth_error_Some; congruence).
  apply (map_nth_error index) in E.
  rewrite reset_index_labels in E.
  rewrite nth_error_nth' with (d := 0%nat) in E by (now rewrite length_seq).
  rewrite seq_nth in E by exact L. now inversion E.
Qed.

(** ** Comparisons on prices *)

Lemma Qltb_lt (x y : Q) : Qltb x y = true <-> (x < y)%Q.
Proof.
  unfold Qltb. rewrite negb_true_iff, <- not_true_iff_false, Qle_bool_iff.
  split; [apply Qnot_le_lt | apply Qlt_not_le].
Qed.

Lemma Qltb_ge (x y : Q) : Qltb x y = false <-> (y <= x)%Q.
Proof.
  unfold Qltb. rewrite negb_false_iff. apply Qle_bool_iff.
Qed.

Lemma split_by_test {A : Type} (f : A -> bool) (l : list A) :
  Permutation (filter f l ++ filter (fun a => negb (f a)) l) l.
Proof.
  induction l as [|a l IH]; cbn.
  - constructor.
  - destruct (f a); cbn.
    + now constructor.
    + rewrite <- Permutation_middle. now constructor.
Qed.

Lemma prepared_position (bars : list Bar) (years : Q) (r : Row) :
  In r (prepare bars years) -> nth_error (prepare bars years) (index r) = Some r.
Proof.
  intros H. apply In_nth_error in H. destruct H as [i E].
  unfold prepare, prepare_frame, prepare_w in *.
  now rewrite (reset_index_position _ _ _ E).
Qed.

(** C6: the "up" group is exactly the bars with close >= open, the
    "down" group exactly those with close < open; no bar is in both, the
    two together are the whole prepared series, and every bar of a group
    still carries the plot index at which it stands in the series. *)
Theorem candle_groups_partition (bars : list Bar) (years : Q) :
  let df := prepare bars years in
  (forall r, In r (up df) <-> In r df /\ (Open (bar r) <= Close (bar r))%Q) /\
  (forall r, In r (down df) <-> In r df /\ (Close (bar r) < Open (bar r))%Q) /\
  (forall r, ~ (In r (up df) /\ In r (down df))) /\
  Permutation (up df ++ down df) df /\
  (forall r, In r (up df ++ down df) -> nth_error df (index r) = Some r).
Proof.
  intros df.
  assert (U : forall r, In r (up df) <-> In r df /\ (Open (bar r) <= Close (bar r))%Q).
  { intros r. unfold up, is_up. now rewrite filter_In, Qle_bool_iff. }
  assert (D : forall r, In r (down df) <-> In r df /\ (Close (bar r) < Open (bar r))%Q).
  { intros r. unfold down, is_down. now rewrite filter_In, Qltb_lt. }
  repeat split; try (now apply U); try (now apply D).
  - intros r [Hu Hd]. apply U in Hu. apply D in Hd.
    exact (Qlt_not_le _ _ (proj2 Hd) (proj2 Hu)).
  - apply (split_by_test is_up df).
  - intros r H. apply prepared_position.
    apply in_app_or in H. destruct H as [H|H]; [apply U in H | apply D in H]; tauto.
Qed.

(** ** Sorting by date *)

Lemma insert_by_Date_perm (r : nat * Bar) (l : RawFrame) :
  Permutation (insert_by_Date r l) (r :: l).
Proof.
  induction l as [|h t IH]; cbn.
  - apply Permutation_refl.
  - destruct (Date (snd r) <=? Date (snd h)).
    + apply Permutation_refl.
    + rewrite IH. apply perm_swap.
Qed.

Lemma sort_values_perm (l : RawFrame) : Permutation (sort_values_Date l) l.
Proof.
  induction l as [|r t IH]; cbn.
  - constructor.
  - rewrite insert_by_Date_perm. now constructor.
Qed.

Lemma insert_by_Date_sorted (r : nat * Bar) (l : RawFrame) :
  StronglySorted Z.le (map key l) ->
  StronglySorted Z.le (map key (insert_by_Date r l)).
Proof.
  induction l as [|h t IH]; cbn; intros S.
  - repeat constructor.
  - apply StronglySorted_inv in S. destruct S as [St Fh].
    destruct (Date (snd r) <=? Date (snd h)) eqn:E; cbn.
    + apply Z.leb_le in E. constructor.
      * now constructor.
      * constructor; [exact E|].
        eapply Forall_impl; [|exact Fh]. intros d Hd. cbn in Hd.
        unfold key in *. lia.
    + apply Z.leb_gt in E. constructor.
      * now apply IH.
      * apply (Permutation_Forall
                 (Permutation_sym (Permutation_map key (insert_by_Date_perm r t)))).
        cbn. constructor; [unfold key; lia | exact Fh].
Qed.

Lemma sort_values_sorted (l : RawFrame) :
  StronglySorted Z.le (map key (sort_values_Date l)).
Proof.
  induction l as [|r t IH]; cbn.
  - constructor.
  - now apply insert_by_Date_sorted.
Qed.

Lemma from_rows_bars (bars : list Bar) : map snd (from_rows bars) = bars.
Proof.
  unfold from_rows. generalize 0%nat.
  induction bars as [|b t IH]; intros s; cbn; [reflexivity|].
  f_equal. apply IH.
Qed.

Lemma sorted_bars_perm (bars : list Bar) :
  Permutation (map snd (sort_values_Date (from_rows bars))) bars.
Proof.
  rewrite <- (from_rows_bars bars) at 2.
  apply Permutation_map, sort_values_perm.
Qed.

Lemma strict_of_NoDup (l : list Z) :
  StronglySorted Z.le l -> NoDup l -> StronglySorted Z.lt l.
Proof.
  induction 1 as [|a l S IH F]; intros N.
  - constructor.
  - inversion N as [|? ? Na Nl]; subst. constructor.
    + now apply IH.
    + rewrite Forall_forall in *. intros d Hd.
      specialize (F d Hd).
      assert (a <> d) by (intros ->; contradiction). lia.
Qed.

Lemma StronglySorted_filter {A : Type} (R : A -> A -> Prop) (f : A -> bool)
  (l : list A) :
  StronglySorted R l -> StronglySorted R (filter f l).
Proof.
  induction 1 as [|a l S IH F]; cbn.
  - constructor.
  - destruct (f a); [|exact IH].
    constructor; [exact IH|].
    rewrite Forall_forall in *. intros x Hx.
    apply filter_In in Hx. now apply F.
Qed.

(** ** The columns of the prepared frame *)

Lemma roll_mean_length (w : nat) (incoming : list Q) :
  forall i s outgoing,
    List.length (roll_mean w i s incoming outgoing) = List.length incoming.
Proof.
  induction incoming as [|x rest IH]; intros i s outgoing; cbn.
  - reflexivity.
  - now rewrite IH.
Qed.

Lemma add_sma_columns (w : nat) (raw : RawFrame) :
  map bar (add_sma w raw) = map snd raw /\
  map SMA (add_sma w raw) = rolling_mean w (map (fun p => Close (snd p)) raw).
Proof.
  unfold add_sma.
  assert (L : List.length (rolling_mean w (map (fun p => Close (snd p)) raw))
              = List.length raw).
  { unfold rolling_mean. now rewrite roll_mean_length, length_map. }
  revert L. generalize (rolling_mean w (map (fun p => Close (snd p)) raw)).
  induction raw as [|p raw IH]; intros [|s smas] L; cbn in *; try discriminate.
  - now split.
  - destruct (IH smas) as [-> ->]; [congruence|]. now split.
Qed.

Lemma add_sma_Dates (w : nat) (raw : RawFrame) :
  Dates (add_sma w raw) = map key raw.
Proof.
  unfold Dates. rewrite <- (map_map bar Date), (proj1 (add_sma_columns w raw)).
  now rewrite map_map.
Qed.

Lemma Date_max_spec (df : DataFrame) (m : Timestamp) :
  Date_max df = Some m ->
  In m (Dates df) /\ (forall d, In d (Dates df) -> d <= m).
Proof.
  destruct df as [|r t]; cbn; [discriminate|].
  intros E. injection E as E. revert E.
  fold (Dates t). generalize (Date (bar r)) as a.
  induction (Dates t) as [|d ds IH]; cbn; intros a E.
  - subst. split; [now left|]. intros d [->|[]]. lia.
  - destruct (IH _ E) as [[Hm|Hm] Hb].
    + split.
      * destruct (Z.max_spec a d) as [[_ Hx]|[_ Hx]]; rewrite Hx in Hm; auto.
      * intros x [Hx|[Hx|Hx]]; [| |apply Hb; now right];
          assert (Z.max a d <= m) by (apply Hb; now left); lia.
    + split; [now right; right|].
      intros x [Hx|[Hx|Hx]]; [| |apply Hb; now right];
        assert (Z.max a d <= m) by (apply Hb; now left); lia.
Qed.

Lemma lookback_filter_kept (years : Q) (df : DataFrame) :
  lookback_filter years df = filter (fun r => kept years df (Date (bar r))) df.
Proof.
  unfold lookback_filter, kept. destruct (Date_max df) eqn:E.
  - reflexivity.
  - destruct df; [reflexivity | discriminate].
Qed.

Lemma prepare_w_Dates (w : nat) (raw : RawFrame) (years : Q) :
  Dates (prepare_w w raw years)
  = filter (kept years (add_sma w raw)) (map key raw).
Proof.
  unfold prepare_w, Dates. rewrite <- (map_map bar Date).
  rewrite (proj1 (reset_index_columns _)), map_map, lookback_filter_kept.
  rewrite <- (add_sma_Dates w). unfold Dates.
  now rewrite filter_map_swap.
Qed.

(** ** Date order of the prepared series *)

Lemma prepared_Dates (bars : list Bar) (years : Q) :
  exists keep : Timestamp -> bool,
    Dates (prepare bars years)
    = filter keep (map key (sort_values_Date (from_rows bars))).
Proof.
  eexists. unfold prepare, prepare_frame. apply prepare_w_Dates.
Qed.

Lemma sorted_keys_perm (bars : list Bar) :
  Permutation (map key (sort_values_Date (from_rows bars))) (map Date bars).
Proof.
  unfold key. rewrite <- (map_map snd Date).
  apply Permutation_map, sorted_bars_perm.
Qed.

(** C9, as the code has it: the prepared series is in ascending date
    order, repeated dates staying side by side; when no date occurs twice
    in the input it is strictly increasing and free of duplicates. *)
Theorem prepared_dates_ascending (bars : list Bar) (years : Q) :
  StronglySorted Z.le (Dates (prepare bars years)) /\
  (NoDup (map Date bars) ->
   StronglySorted Z.lt (Dates (prepare bars years)) /\
   NoDup (Dates (prepare bars years))).
Proof.
  destruct (prepared_Dates bars years) as [keep E]. rewrite E.
  assert (S : StronglySorted Z.le
                (filter keep (map key (sort_values_Date (from_rows bars)))))
    by apply StronglySorted_filter, sort_values_sorted.
  split; [exact S|]. intros N.
  assert (N' : NoDup (filter keep (map key (sort_values_Date (from_rows bars))))).
  { apply NoDup_filter.
    exact (Permutation_NoDup (Permutation_sym (sorted_keys_perm bars)) N). }
  split; [now apply strict_of_NoDup | exact N'].
Qed.

Lemma prepared_dates_ascending_witness :
  StronglySorted Z.lt (Dates (prepare two_days 1)) /\
  NoDup (Dates (prepare two_days 1)).
Proof.
  apply (prepared_dates_ascending two_days 1).
  repeat constructor; cbn; intuition discriminate.
Defined.

(** C9 as stated fails: a table that holds the same date twice is prepared
    into a series that holds it twice. *)
Lemma repeated_date_survives :
  Dates (prepare repeated_row 1) = [ymd 2024 3 15; ymd 2024 3 15] /\
  ~ StronglySorted Z.lt (Dates (prepare repeated_row 1)) /\
  ~ NoDup (Dates (prepare repeated_row 1)).
Proof.
  assert (E : Dates (prepare repeated_row 1) = [ymd 2024 3 15; ymd 2024 3 15])
    by (vm_compute; reflexivity).
  rewrite E. split; [reflexivity|]. split; intros H.
  - apply StronglySorted_inv in H. destruct H as [_ F].
    inversion F; subst. lia.
  - inversion H as [|? ? Hin _]; subst. apply Hin. now left.
Qed.

(** ** Rounding to a double is monotone *)

Lemma rne_bounds (x : Q) : Qfloor x <= rne x <= Qfloor x + 1.
Proof.
  unfold rne. cbv zeta.
  destruct (Qcompare (x - inject_Z (Qfloor x)) (1 # 2)); [destruct (Z.even (Qfloor x))| |]; lia.
Qed.

Lemma rne_mono (x y : Q) : (x <= y)%Q -> rne x <= rne y.
Proof.
  intros H. pose proof (Qfloor_resp_le x y H) as F.
  pose proof (rne_bounds x). pose proof (rne_bounds y).
  destruct (Z.eq_dec (Qfloor x) (Qfloor y)) as [E|E]; [|lia].
  unfold rne in *. cbv zeta in *. rewrite <- E in *.
  destruct (Qcompare_spec (x - inject_Z (Qfloor x)) (1 # 2)) as [Hx|Hx|Hx];
    destruct (Qcompare_spec (y - inject_Z (Qfloor x)) (1 # 2)) as [Hy|Hy|Hy];
    try lia; try (exfalso; lra);
    destruct (Z.even (Qfloor x)); lia.
Qed.

Lemma rne_comp (x y : Q) : (x == y)%Q -> rne x = rne y.
Proof.
  intros H. unfold rne. cbv zeta. rewrite (Qfloor_comp x y H).
  assert (E : Qcompare (x - inject_Z (Qfloor y)) (1 # 2)
              = Qcompare (y - inject_Z (Qfloor y)) (1 # 2)).
  { apply Qcompare_comp; [now rewrite H | reflexivity]. }
  now rewrite E.
Qed.

Lemma rne_inject (z : Z) : rne (inject_Z z) = z.
Proof.
  unfold rne. cbv zeta. rewrite Qfloor_Z.
  assert (L : (inject_Z z - inject_Z z < 1 # 2)%Q) by lra.
  pose proof (proj1 (Qlt_alt _ _) L) as L'. now rewrite L'.
Qed.

Lemma two_neq_0 : ~ (2 == 0)%Q.
Proof. intros H. discriminate H. Qed.

Lemma pow2_pos (k : Z) : (0 < 2 ^ k)%Q.
Proof. apply Qpower_0_lt. reflexivity. Qed.

Lemma pow2_add (a b : Z) : (2 ^ (a + b) == 2 ^ a * 2 ^ b)%Q.
Proof. apply Qpower_plus, two_neq_0. Qed.

Lemma pow2_Z (k : Z) : 0 <= k -> (inject_Z (2 ^ k) == 2 ^ k)%Q.
Proof. intros H. exact (Zpower_Qpower 2 k H). Qed.

Lemma pow2_le (a b : Z) : a <= b -> (2 ^ a <= 2 ^ b)%Q.
Proof. intros H. apply Qpower_le_compat_l; [exact H | discriminate]. Qed.

Lemma div_lt_cross (x y u v : Q) :
  (0 < y)%Q -> (0 < v)%Q -> (x * v < u * y)%Q -> (x / y < u / v)%Q.
Proof.
  intros Hy Hv H. apply Qlt_shift_div_r; [exact Hy|].
  assert (E : (u / v * y == (u * y) / v)%Q) by (field; lra).
  rewrite E. apply Qlt_shift_div_l; [exact Hv | exact H].
Qed.

Lemma div_le_cross (x y u v : Q) :
  (0 < y)%Q -> (0 < v)%Q -> (x * v <= u * y)%Q -> (x / y <= u / v)%Q.
Proof.
  intros Hy Hv H. apply Qle_shift_div_r; [exact Hy|].
  assert (E : (u / v * y == (u * y) / v)%Q) by (field; lra).
  rewrite E. apply Qle_shift_div_l; [exact Hv | exact H].
Qed.

Lemma binade_spec (q : Q) :
  (0 < q)%Q -> (2 ^ binade q <= q < 2 ^ (binade q + 1))%Q.
Proof.
  intros Hq. destruct q as [n d].
  assert (Hn : 0 < n).
  { unfold Qlt in Hq. cbn in Hq. lia. }
  pose proof (Z.log2_spec n Hn) as [Ln Un].
  pose proof (Z.log2_spec (Zpos d) eq_refl) as [Ld Ud].
  pose proof (Z.log2_nonneg n) as Pn.
  pose proof (Z.log2_nonneg (Zpos d)) as Pd.
  unfold binade. cbn [Qnum Qden].
  set (ln := Z.log2 n) in *. set (ld := Z.log2 (Zpos d)) in *.
  assert (Ea : (2 ^ ln == inject_Z (2 ^ ln))%Q) by (symmetry; now apply pow2_Z).
  assert (Eb : (2 ^ ld == inject_Z (2 ^ ld))%Q) by (symmetry; now apply pow2_Z).
  assert (Ha : (2 ^ ln <= inject_Z n)%Q) by (rewrite Ea, <- Zle_Qle; exact Ln).
  assert (Ha' : (inject_Z n < 2 * 2 ^ ln)%Q).
  { rewrite Ea. change 2%Q with (inject_Z 2). rewrite <- inject_Z_mult, <- Zlt_Qlt.
    rewrite <- Z.pow_succ_r by exact Pn. exact Un. }
  assert (Hb : (2 ^ ld <= inject_Z (Zpos d))%Q) by (rewrite Eb, <- Zle_Qle; exact Ld).
  assert (Hb' : (inject_Z (Zpos d) < 2 * 2 ^ ld)%Q).
  { rewrite Eb. change 2%Q with (inject_Z 2). rewrite <- inject_Z_mult, <- Zlt_Qlt.
    rewrite <- Z.pow_succ_r by exact Pd. exact Ud. }
  pose proof (pow2_pos ln) as Pa. pose proof (pow2_pos ld) as Pb.
  assert (PD : (0 < inject_Z (Zpos d))%Q) by reflexivity.
  assert (PN : (0 < inject_Z n)%Q).
  { change 0%Q with (inject_Z 0). now rewrite <- Zlt_Qlt. }
  assert (Eq : (n # d == inject_Z n / inject_Z (Zpos d))%Q) by apply Qmake_Qdiv.
  assert (E0 : (2 ^ (ln - ld) == 2 ^ ln / 2 ^ ld)%Q).
  { unfold Z.sub. rewrite pow2_add, Qpower_opp. reflexivity. }
  assert (E1 : (2 ^ (ln - ld + 1) == (2 * 2 ^ ln) / 2 ^ ld)%Q).
  { rewrite pow2_add, E0. change (2 ^ 1)%Q with 2%Q. field. lra. }
  assert (E2 : (2 ^ (ln - ld - 1) == 2 ^ ln / (2 * 2 ^ ld))%Q).
  { unfold Z.sub at 1. rewrite pow2_add, E0. change (2 ^ (- (1)))%Q with (1 # 2)%Q.
    field. lra. }
  destruct (Qle_bool (2 ^ (ln - ld)) (n # d)) eqn:T.
  - apply Qle_bool_iff in T. split; [exact T|].
    rewrite E1, Eq. apply div_lt_cross; try assumption. nra.
  - assert (T' : (n # d < 2 ^ (ln - ld))%Q).
    { apply Qnot_le_lt. intros C. apply Qle_bool_iff in C. congruence. }
    replace (ln - ld - 1 + 1) with (ln - ld) by lia.
    split; [|exact T'].
    rewrite E2, Eq. apply div_le_cross; try lra. nra.
Qed.

Lemma binade_mono (q1 q2 : Q) :
  (0 < q1)%Q -> (q1 <= q2)%Q -> binade q1 <= binade q2.
Proof.
  intros H1 H12.
  destruct (binade_spec q1 H1) as [L1 _].
  destruct (binade_spec q2) as [_ U2]; [lra|].
  destruct (Z_le_gt_dec (binade q1) (binade q2)) as [H|H]; [exact H|].
  exfalso. assert (P : (2 ^ (binade q2 + 1) <= 2 ^ binade q1)%Q) by (apply pow2_le; lia).
  lra.
Qed.

Lemma rne_nonneg (x : Q) : (0 <= x)%Q -> 0 <= rne x.
Proof.
  intros H. pose proof (rne_bounds x).
  pose proof (Qfloor_resp_le 0 x H) as F. change (Qfloor 0) with 0 in F. lia.
Qed.

Lemma saturate_mono (v1 v2 : Q) :
  (v1 <= v2)%Q ->
  ((if Qle_bool INF v1 then INF else v1) <= (if Qle_bool INF v2 then INF else v2))%Q.
Proof.
  intros H.
  destruct (Qle_bool INF v1) eqn:E1, (Qle_bool INF v2) eqn:E2;
    try apply Qle_bool_iff in E1; try apply Qle_bool_iff in E2; try lra.
  apply Qlt_le_weak, Qnot_le_lt. intros C. apply Qle_bool_iff in C. congruence.
Qed.

Lemma fl_pos_mono (q1 q2 : Q) :
  (0 < q1)%Q -> (q1 <= q2)%Q -> (fl_pos q1 <= fl_pos q2)%Q.
Proof.
  intros H1 H12. assert (H2 : (0 < q2)%Q) by lra.
  unfold fl_pos. cbv zeta. apply saturate_mono.
  pose proof (binade_mono q1 q2 H1 H12) as Hb.
  destruct (binade_spec q1 H1) as [L1 U1].
  destruct (binade_spec q2 H2) as [L2 U2].
  unfold ulp_exp.
  set (e1 := binade q1) in *. set (e2 := binade q2) in *.
  set (k1 := Z.max (e1 - 52) (-1074)). set (k2 := Z.max (e2 - 52) (-1074)).
  pose proof (pow2_pos k1) as P1. pose proof (pow2_pos k2) as P2.
  destruct (Z.eq_dec k1 k2) as [E|E].
  - rewrite <- E.
    apply Qmult_le_compat_r; [|lra].
    rewrite <- Zle_Qle. apply rne_mono.
    apply Qmult_le_compat_r; [exact H12|]. apply Qlt_le_weak, Qinv_lt_0_compat, P1.
  - assert (K : k1 < k2) by lia.
    assert (K2 : k2 = e2 - 52) by lia.
    assert (E12 : e1 + 1 <= e2) by lia.
    apply Qle_trans with (2 ^ e2)%Q.
    + (* v1 <= 2^e2 *)
      assert (D : 0 <= e2 - k1) by lia.
      assert (X : (q1 / 2 ^ k1 <= inject_Z (2 ^ (e2 - k1)))%Q).
      { rewrite (pow2_Z _ D). apply Qle_shift_div_r; [exact P1|].
        rewrite <- pow2_add. replace (e2 - k1 + k1) with e2 by lia.
        apply Qle_trans with (2 ^ (e1 + 1))%Q; [lra | now apply pow2_le]. }
      apply rne_mono in X. rewrite rne_inject in X.
      rewrite Zle_Qle in X. rewrite (pow2_Z _ D) in X.
      apply Qle_trans with (2 ^ (e2 - k1) * 2 ^ k1)%Q.
      * apply Qmult_le_compat_r; [exact X | lra].
      * rewrite <- pow2_add. replace (e2 - k1 + k1) with e2 by lia. lra.
    + (* 2^e2 <= v2 *)
      assert (X : (inject_Z (2 ^ 52) <= q2 / 2 ^ k2)%Q).
      { rewrite (pow2_Z 52) by lia. apply Qle_shift_div_l; [exact P2|].
        rewrite <- pow2_add. replace (52 + k2) with e2 by lia. exact L2. }
      apply rne_mono in X. rewrite rne_inject in X.
      rewrite Zle_Qle in X. rewrite (pow2_Z 52) in X by lia.
      apply Qle_trans with (2 ^ 52 * 2 ^ k2)%Q.
      * rewrite <- pow2_add. replace (52 + k2) with e2 by lia. lra.
      * apply Qmult_le_compat_r; [exact X | lra].
Qed.

Lemma fl_pos_nonneg (q : Q) : (0 < q)%Q -> (0 <= fl_pos q)%Q.
Proof.
  intros H. unfold fl_pos. cbv zeta.
  assert (I : (0 < INF)%Q) by apply pow2_pos.
  destruct (Qle_bool INF _); [lra|].
  apply Qmult_le_0_compat; [|apply Qlt_le_weak, pow2_pos].
  change 0%Q with (inject_Z 0). rewrite <- Zle_Qle. apply rne_nonneg.
  apply Qle_shift_div_l; [apply pow2_pos | lra].
Qed.

Lemma fl_mono (q1 q2 : Q) : (q1 <= q2)%Q -> (fl q1 <= fl q2)%Q.
Proof.
  intros H. unfold fl.
  destruct (Qcompare_spec q1 0) as [Z1|N1|P1];
    destruct (Qcompare_spec q2 0) as [Z2|N2|P2]; try lra.
  - pose proof (fl_pos_nonneg q2 P2). lra.
  - pose proof (fl_pos_nonneg (- q1)). lra.
  - apply Qopp_le_compat. apply fl_pos_mono; lra.
  - pose proof (fl_pos_nonneg (- q1)). pose proof (fl_pos_nonneg q2 P2). lra.
  - now apply fl_pos_mono.
Qed.

Lemma int_nonneg (x : Q) : (0 <= x)%Q -> int x = Qfloor x.
Proof.
  destruct x as [a b]. unfold Qle, int, Qfloor. cbn [Qnum Qden]. intros H.
  apply Z.quot_div_nonneg; lia.
Qed.

Lemma int_neg (x : Q) : (x <= 0)%Q -> int x = - Qfloor (- x).
Proof.
  destruct x as [a b]. unfold Qle, int, Qfloor, Qopp. cbn [Qnum Qden]. intros H.
  rewrite <- (Z.opp_involutive a) at 1.
  rewrite Z.quot_opp_l by discriminate.
  f_equal. apply Z.quot_div_nonneg; lia.
Qed.

Lemma int_mono (x y : Q) : (x <= y)%Q -> int x <= int y.
Proof.
  intros H.
  destruct (Qlt_le_dec x 0) as [Hx|Hx], (Qlt_le_dec y 0) as [Hy|Hy].
  - rewrite !int_neg by lra.
    assert (F : Qfloor (- y) <= Qfloor (- x)) by (apply Qfloor_resp_le; lra). lia.
  - rewrite int_neg, int_nonneg by lra.
    assert (F1 : Qfloor 0 <= Qfloor (- x)) by (apply Qfloor_resp_le; lra).
    assert (F2 : Qfloor 0 <= Qfloor y) by (apply Qfloor_resp_le; lra).
    change (Qfloor 0) with 0 in *. lia.
  - lra.
  - rewrite !int_nonneg by lra. now apply Qfloor_resp_le.
Qed.

Lemma span_float_mono (d1 d2 : Q) :
  (d1 <= d2)%Q -> (span_float d1 <= span_float d2)%Q.
Proof.
  intros H. unfold span_float.
  apply fl_mono. apply Qmult_le_compat_r; [|discriminate].
  apply fl_mono. apply Qmult_le_compat_r; [|discriminate].
  apply fl_mono. apply Qmult_le_compat_r; [exact H | discriminate].
Qed.

Lemma Timedelta_ns_mono (years1 years2 : Q) :
  (years1 <= years2)%Q ->
  Timedelta_ns (lookback_days years1) <= Timedelta_ns (lookback_days years2).
Proof.
  intros H. unfold Timedelta_ns. apply int_mono, span_float_mono.
  unfold lookback_days. apply fl_mono.
  apply Qmult_le_compat_r; [now apply fl_mono | discriminate].
Qed.

(** The test of line 92 in whole nanoseconds. *)
Lemma after_ns (m d : Timestamp) (years : Q) :
  after (cutoff_date m years) d
  = (m * NS_PER_DAY - Timedelta_ns (lookback_days years) <? d * NS_PER_DAY).
Proof.
  apply eq_true_iff_eq. unfold after, cutoff_date.
  rewrite Qltb_lt, Z.ltb_lt.
  generalize (Timedelta_ns (lookback_days years)) as t. intros t.
  rewrite Zlt_Qlt. unfold Z.sub.
  rewrite inject_Z_plus, inject_Z_opp, !inject_Z_mult.
  change (inject_Z NS_PER_DAY) with 86400000000000%Q.
  unfold Qdiv. change (/ 86400000000000)%Q with (1 # 86400000000000)%Q.
  split; intros H; lra.
Qed.

(** ** The look-back filter *)

Lemma Permutation_filter {A : Type} (f : A -> bool) (l l' : list A) :
  Permutation l l' -> Permutation (filter f l) (filter f l').
Proof.
  induction 1 as [|a l l' P IH|a b l|l l' l'' P1 IH1 P2 IH2]; cbn.
  - constructor.
  - destruct (f a); [now constructor | exact IH].
  - destruct (f a), (f b); try apply Permutation_refl. apply perm_swap.
  - now transitivity (filter f l').
Qed.

Lemma prepare_bars (bars : list Bar) (years : Q) :
  let sorted := sort_values_Date (from_rows bars) in
  map bar (prepare bars years)
  = filter (fun b => kept years (add_sma lookback_window sorted) (Date b))
           (map snd sorted).
Proof.
  intros sorted. unfold prepare, prepare_frame, prepare_w. fold sorted.
  rewrite (proj1 (reset_index_columns _)), lookback_filter_kept.
  rewrite <- (proj1 (add_sma_columns lookback_window sorted)).
  now rewrite filter_map_swap.
Qed.

Lemma add_sma_nonempty (w : nat) (raw : RawFrame) :
  raw <> [] -> exists m, Date_max (add_sma w raw) = Some m.
Proof.
  intros H. destruct (add_sma w raw) as [|r t] eqn:E.
  - apply (f_equal (map bar)) in E.
    rewrite (proj1 (add_sma_columns w raw)) in E.
    destruct raw; [contradiction | discriminate].
  - cbn. eauto.
Qed.

Lemma latest_spec (bars : list Bar) (m : Timestamp) :
  latest bars = Some m ->
  In m (map Date bars) /\ (forall d, In d (map Date bars) -> d <= m).
Proof.
  destruct bars as [|b0 t]; cbn; [discriminate|].
  intros E. injection E as E. revert E.
  generalize (Date b0) as a.
  induction (map Date t) as [|d ds IH]; cbn; intros a E.
  - subst. split; [now left|]. intros d [->|[]]. lia.
  - destruct (IH _ E) as [[Hm|Hm] Hb].
    + split.
      * destruct (Z.max_spec a d) as [[_ Hx]|[_ Hx]]; rewrite Hx in Hm; auto.
      * intros x [Hx|[Hx|Hx]]; [| |apply Hb; now right];
          assert (Z.max a d <= m) by (apply Hb; now left); lia.
    + split; [now right; right|].
      intros x [Hx|[Hx|Hx]]; [| |apply Hb; now right];
        assert (Z.max a d <= m) by (apply Hb; now left); lia.
Qed.

(** The maximum that line 91 reads off the sorted frame is the latest
    date of the table. *)
Lemma Date_max_latest (bars : list Bar) :
  Date_max (add_sma lookback_window (sort_values_Date (from_rows bars)))
  = latest bars.
Proof.
  destruct bars as [|b0 t]; [reflexivity|].
  set (sorted := sort_values_Date (from_rows (b0 :: t))).
  assert (NS : sorted <> []).
  { intros E. pose proof (sorted_bars_perm (b0 :: t)) as P. fold sorted in P.
    rewrite E in P. apply Permutation_nil in P. discriminate P. }
  destruct (add_sma_nonempty lookback_window sorted NS) as [m Em].
  destruct (Date_max_spec _ _ Em) as [Hin Hmax].
  rewrite add_sma_Dates in Hin, Hmax.
  pose proof (sorted_keys_perm (b0 :: t)) as PK. fold sorted in PK.
  destruct (latest (b0 :: t)) as [m'|] eqn:L; [|discriminate L].
  destruct (latest_spec _ _ L) as [Hin' Hmax'].
  rewrite Em. f_equal.
  assert (m <= m') by (apply Hmax'; exact (Permutation_in _ PK Hin)).
  assert (m' <= m)
    by (apply Hmax; exact (Permutation_in _ (Permutation_sym PK) Hin')).
  lia.
Qed.

Lemma prepare_retained (bars : list Bar) (years : Q) :
  Permutation (map bar (prepare bars years)) (filter (retained bars years) bars).
Proof.
  rewrite prepare_bars. cbv zeta.
  rewrite (filter_ext _ (retained bars years)).
  - apply Permutation_filter, sorted_bars_perm.
  - intros b0. unfold kept, retained. now rewrite Date_max_latest.
Qed.

Lemma prepare_run_ok (bars : list Bar) (years : Q) (m : Timestamp) :
  latest bars = Some m -> line_91 m years = Ok tt ->
  prepare_run bars years = Ok (prepare bars years).
Proof.
  intros L H. unfold prepare_run, prepare_frame_run.
  rewrite Date_max_latest, L, H. reflexivity.
Qed.





Lemma prepare_run_inv (bars : list Bar) (years : Q) (df : DataFrame) :
  prepare_run bars years = Ok df -> df = prepare bars years.
Proof.
  unfold prepare_run, prepare_frame_run, prepare.
  destruct (Date_max _) as [m|].
  - destruct (line_91 m years) as [[]|e]; cbn [bind]; intros E;
      [now injection E | discriminate E].
  - intros E. now injection E.
Qed.

(** C8: after preparation the plot indices are 0, 1, ..., n-1 in order,
    n being the number of bars of the input that pass the test of line
    92, whatever the dates of the input are; the rows that carry them are
    those bars, and the series a run prepares is this one. *)
Theorem plot_indices_contiguous (bars : list Bar) (years : Q) :
  (forall df, prepare_run bars years = Ok df -> df = prepare bars years) /\
  map index (prepare bars years)
  = seq 0 (List.length (filter (retained bars years) bars)) /\
  Permutation (map bar (prepare bars years)) (filter (retained bars years) bars).
Proof.
  pose proof (prepare_retained bars years) as P.
  split; [exact (prepare_run_inv bars years)|].
  split; [|exact P].
  apply Permutation_length in P. rewrite length_map in P. rewrite <- P.
  unfold prepare, prepare_frame, prepare_w. apply reset_index_labels.
Qed.

(** ** The rolling mean *)

Lemma Qsum_app (l l' : list Q) : (Qsum (l ++ l') == Qsum l + Qsum l')%Q.
Proof.
  induction l as [|x l IH]; cbn.
  - now rewrite Qplus_0_l.
  - rewrite IH. apply Qplus_assoc.
Qed.

Lemma skipn_cons_inv {A : Type} (l : list A) (i : nat) (x : A) (rest : list A) :
  skipn i l = x :: rest -> nth_error l i = Some x /\ skipn (S i) l = rest.
Proof.
  revert l. induction i as [|i IH]; intros [|a l] E; cbn in E; try discriminate E.
  - injection E as Ha Hl. subst. now split.
  - exact (IH l E).
Qed.

Lemma firstn_snoc {A : Type} (l : list A) (n : nat) (x : A) :
  nth_error l n = Some x -> firstn (S n) l = firstn n l ++ [x].
Proof.
  revert l. induction n as [|n IH]; intros [|a l] E; cbn in *; try discriminate.
  - now injection E as ->.
  - f_equal. now apply IH.
Qed.

Lemma skipn_cons {A : Type} (l : list A) (n : nat) (x : A) :
  nth_error l n = Some x -> skipn n l = x :: skipn (S n) l.
Proof.
  revert l. induction n as [|n IH]; intros [|a l] E; cbn in *; try discriminate.
  - now injection E as ->.
  - now apply IH.
Qed.

Section Rolling.
Variable w : nat.
Variable xs : list Q.
Hypothesis w_pos : (0 < w)%nat.

Lemma running_step i sum_x x rest outgoing :
  running w xs i sum_x (x :: rest) outgoing ->
  let full := (w <=? i)%nat in
  let removed := if full then hd 0%Q outgoing else 0%Q in
  let outgoing' := if full then tl outgoing else outgoing in
  running w xs (S i) (sum_x + x - removed)%Q rest outgoing'.
Proof.
  intros (Hin & Hout & Hsum). symmetry in Hin.
  destruct (skipn_cons_inv _ _ _ _ Hin) as [Hx Hrest].
  cbv zeta. destruct (w <=? i)%nat eqn:F.
  - apply Nat.leb_le in F.
    assert (Li : (i < List.length xs)%nat) by (apply nth_error_Some; congruence).
    destruct (nth_error xs (i - w)) as [o|] eqn:Ho;
      [|apply nth_error_None in Ho; lia].
    rewrite (skipn_cons _ _ _ Ho) in Hout, Hsum.
    unfold running. replace (S i - w)%nat with (S (i - w)) by lia.
    repeat split.
    + now rewrite Hrest.
    + now rewrite Hout.
    + rewrite Hout. cbn [hd].
      rewrite Nat.min_r in Hsum by lia. rewrite Nat.min_r by lia.
      destruct w as [|w']; [lia|].
      cbn [firstn Qsum fold_right] in Hsum. fold (Qsum (firstn w' (skipn (S (i - S w')) xs))) in Hsum.
      rewrite (firstn_snoc _ w' x), Qsum_app, Hsum.
      * cbn. ring.
      * rewrite nth_error_skipn.
        now replace (S (i - S w') + w')%nat with i by lia.
  - apply Nat.leb_gt in F.
    replace (i - w)%nat with 0%nat in * by lia.
    unfold running. replace (S i - w)%nat with 0%nat by lia.
    rewrite skipn_0 in *.
    repeat split.
    + now rewrite Hrest.
    + exact Hout.
    + rewrite Nat.min_l in Hsum by lia. rewrite Nat.min_l by lia.
      rewrite (firstn_snoc _ i x Hx), Qsum_app, Hsum. cbn. ring.
Qed.

Lemma roll_mean_spec incoming :
  forall i sum_x outgoing,
    running w xs i sum_x incoming outgoing ->
    forall k o,
      nth_error (roll_mean w i sum_x incoming outgoing) k = Some o ->
      sma_ok w xs (i + k) o.
Proof.
  induction incoming as [|x rest IH]; intros i sum_x outgoing R k o E.
  - destruct k; discriminate.
  - pose proof (running_step _ _ _ _ _ R) as R'. cbv zeta in R'.
    cbn [roll_mean] in E. destruct k as [|k].
    + cbn in E. injection E as <-. rewrite Nat.add_0_r.
      unfold sma_ok. destruct (w <=? S i)%nat eqn:F; [|reflexivity].
      apply Nat.leb_le in F. eexists. split; [reflexivity|].
      destruct R' as (_ & _ & ->). rewrite Nat.min_r by lia. reflexivity.
    + cbn [nth_error] in E.
      replace (i + S k)%nat with (S i + k)%nat by lia.
      exact (IH _ _ _ R' _ _ E).
Qed.

Lemma rolling_mean_spec (k : nat) (o : option Q) :
  nth_error (rolling_mean w xs) k = Some o -> sma_ok w xs k o.
Proof.
  intros E. apply (roll_mean_spec xs 0%nat 0%Q xs); [|exact E].
  repeat split.
Qed.
End Rolling.

(** ** Where the prepared rows come from *)

Lemma filter_all {A : Type} (f : A -> bool) (l : list A) :
  (forall x, In x l -> f x = true) -> filter f l = l.
Proof.
  induction l as [|a l IH]; cbn; intros H; [reflexivity|].
  rewrite (H a) by now left. f_equal. apply IH. intros x Hx. apply H. now right.
Qed.

(** On a list in ascending key order, a test that holds from some key on
    keeps a suffix. *)
Lemma filter_sorted_suffix {A : Type} (k : A -> Z) (p : Z -> bool) (l : list A) :
  StronglySorted Z.le (map k l) ->
  (forall a b, p a = true -> a <= b -> p b = true) ->
  filter (fun x => p (k x)) l
  = skipn (List.length l - List.length (filter (fun x => p (k x)) l)) l.
Proof.
  intros Hs Up. induction l as [|a l IH]; [reflexivity|].
  cbn [map] in Hs. apply StronglySorted_inv in Hs. destruct Hs as [Hs F].
  cbn [filter]. destruct (p (k a)) eqn:E.
  - rewrite filter_all.
    + now rewrite Nat.sub_diag.
    + intros x Hx. apply (Up (k a)); [exact E|].
      rewrite Forall_forall in F. apply F. now apply in_map.
  - pose proof (filter_length_le (fun x => p (k x)) l) as L.
    cbn [List.length].
    replace (S (List.length l) - List.length (filter (fun x => p (k x)) l))%nat
      with (S (List.length l - List.length (filter (fun x => p (k x)) l))) by lia.
    cbn [skipn]. now apply IH.
Qed.

Lemma kept_upward (years : Q) (df : DataFrame) (a b : Timestamp) :
  kept years df a = true -> a <= b -> kept years df b = true.
Proof.
  unfold kept, after. destruct (Date_max df); [|reflexivity].
  rewrite !Qltb_lt. intros H L.
  eapply Qlt_le_trans; [exact H|]. now rewrite <- Zle_Qle.
Qed.

Lemma add_sma_length (w : nat) (raw : RawFrame) :
  List.length (add_sma w raw) = List.length raw.
Proof.
  rewrite <- (length_map bar), (proj1 (add_sma_columns w raw)). apply length_map.
Qed.

Lemma prepare_w_columns (w : nat) (raw : RawFrame) (years : Q) :
  StronglySorted Z.le (map key raw) ->
  let df := prepare_w w raw years in
  let k := (List.length raw - List.length df)%nat in
  map bar df = skipn k (map snd raw) /\
  map SMA df = skipn k (rolling_mean w (map (fun p => Close (snd p)) raw)).
Proof.
  intros Hs df k.
  assert (E : lookback_filter years (add_sma w raw) = skipn k (add_sma w raw)).
  { rewrite lookback_filter_kept.
    rewrite (filter_sorted_suffix (fun r => Date (bar r)) (kept years (add_sma w raw))).
    - f_equal. unfold k, df, prepare_w.
      now rewrite reset_index_length, lookback_filter_kept, add_sma_length.
    - fold (Dates (add_sma w raw)). now rewrite add_sma_Dates.
    - apply kept_upward. }
  unfold df, prepare_w.
  destruct (reset_index_columns (lookback_filter years (add_sma w raw))) as [-> ->].
  rewrite E, <- !skipn_map.
  now destruct (add_sma_columns w raw) as [-> ->].
Qed.

(** C3, as the code has it: the average is computed on the whole
    date-sorted input before the look-back filter drops its first [k]
    bars.  The bar at position [i] of the prepared series is the bar at
    position [k + i] of the sorted input; its moving average is defined
    exactly when [k + i >= w - 1] and is then the mean of the closes at
    positions [k + i - w + 1] through [k + i] of the sorted input
    (w = 150). *)
Theorem moving_average_positions (bars : list Bar) (years : Q) (i : nat) (r : Row) :
  let sorted := map snd (sort_values_Date (from_rows bars)) in
  let df := prepare bars years in
  let k := (List.length sorted - List.length df)%nat in
  nth_error df i = Some r ->
  nth_error sorted (k + i) = Some (bar r) /\
  (SMA r <> None <-> (lookback_window - 1 <= k + i)%nat) /\
  (forall s, SMA r = Some s ->
             (s == window_mean lookback_window (map Close sorted) (k + i))%Q).
Proof.
  intros sorted df k E.
  destruct (prepare_w_columns lookback_window (sort_values_Date (from_rows bars))
              years (sort_values_sorted _)) as [Cb Cs].
  cbv zeta in Cb, Cs. fold (prepare_frame (sort_values_Date (from_rows bars)) years) in Cb, Cs.
  fold (prepare bars years) in Cb, Cs. fold df in Cb, Cs.
  replace (List.length (sort_values_Date (from_rows bars))) with (List.length sorted)
    in Cb, Cs by (unfold sorted; apply length_map).
  fold k in Cb, Cs. fold sorted in Cb.
  assert (Eb : nth_error sorted (k + i) = Some (bar r)).
  { rewrite <- nth_error_skipn, <- Cb. now apply map_nth_error. }
  assert (Es : nth_error (rolling_mean lookback_window
                            (map (fun p => Close (snd p))
                                 (sort_values_Date (from_rows bars)))) (k + i)
               = Some (SMA r)).
  { rewrite <- nth_error_skipn, <- Cs. now apply map_nth_error. }
  apply rolling_mean_spec in Es; [|unfold lookback_window; lia].
  unfold sorted. rewrite map_map. fold sorted.
  unfold sma_ok in Es.
  destruct (lookback_window <=? S (k + i))%nat eqn:F.
  - apply Nat.leb_le in F. destruct Es as (s & Hs & Hm).
    split; [exact Eb|]. split.
    + split; [lia | congruence].
    + intros s' E'. rewrite E' in Hs. now injection Hs as ->.
  - apply Nat.leb_gt in F. split; [exact Eb|]. split.
    + split; [congruence | lia].
    + intros s' E'. congruence.
Qed.

Lemma moving_average_positions_witness :
  exists r : Row,
    nth_error (prepare daily_from_2023 1) 0 = Some r /\
    (SMA r <> None <->
     (lookback_window - 1
      <= List.length (map snd (sort_values_Date (from_rows daily_from_2023)))
         - List.length (prepare daily_from_2023 1) + 0)%nat).
Proof.
  destruct (nth_error (prepare daily_from_2023 1) 0) as [r|] eqn:E.
  - exists r. split; [reflexivity|].
    exact (proj1 (proj2 (moving_average_positions daily_from_2023 1 0 r E))).
  - exfalso. vm_compute in E. discriminate E.
Defined.

(** C3 as stated fails: with 516 daily bars and a look-back of one year,
    365 bars are kept and the first of them, at position 0 < 149, already
    carries a moving average (the mean of the 150 closes up to it in the
    full series). *)
Lemma average_defined_at_position_0 :
  List.length (prepare daily_from_2023 1) = 365%nat /\
  map SMA (firstn 1 (prepare daily_from_2023 1)) = [Some (150 # 150)%Q] /\
  ~ (lookback_window - 1 <= 0)%nat.
Proof.
  split; [vm_compute; reflexivity|].
  split; [vm_compute; reflexivity|].
  unfold lookback_window. lia.
Qed.

(** ** The tick formatter *)

Lemma len_Dates (df : DataFrame) : len (Dates df) = len df.
Proof. unfold len, Dates. now rewrite length_map. Qed.

Lemma date_fmt_outside (df : DataFrame) (x : Q) :
  ~ (0 <= int x < len df) -> date_fmt df x = Ok ""%string.
Proof.
  intros H. unfold date_fmt. cbv zeta.
  destruct ((0 <=? int x) && (int x <? len df)) eqn:E; [|reflexivity].
  apply andb_true_iff in E. destruct E as [E1 E2].
  apply Z.leb_le in E1. apply Z.ltb_lt in E2. lia.
Qed.

Lemma date_fmt_inside (df : DataFrame) (x : Q) (i : nat) (dt : Timestamp) :
  int x = Z.of_nat i ->
  nth_error (Dates df) i = Some dt ->
  date_fmt df x
  = Ok (if shows_year (Dates df) i dt then strftime_b_Y dt else strftime_b dt).
Proof.
  intros Hx Hdt.
  assert (Li : (i < List.length (Dates df))%nat)
    by (apply nth_error_Some; congruence).
  unfold date_fmt. cbv zeta. rewrite Hx, <- len_Dates.
  replace (0 <=? Z.of_nat i) with true by (symmetry; apply Z.leb_le; lia).
  replace (Z.of_nat i <? len (Dates df)) with true
    by (symmetry; apply Z.ltb_lt; unfold len; lia).
  cbn [andb]. rewrite (iloc_nat _ _ _ Hdt). cbn [bind].
  destruct i as [|j]; [reflexivity|].
  replace (0 <? Z.of_nat (S j)) with true by (symmetry; apply Z.ltb_lt; lia).
  cbn [shows_year]. destruct (month dt =? 1); [|reflexivity].
  replace (Z.of_nat (S j) - 1) with (Z.of_nat j) by lia.
  assert (Hp : nth_error (Dates df) j = Some (nth j (Dates df) 0))
    by (apply nth_error_nth'; lia).
  rewrite (iloc_nat _ _ _ Hp). cbn [bind ret andb].
  now destruct (negb (year (nth j (Dates df) 0) =? year dt)).
Qed.

Lemma date_fmt_ok (df : DataFrame) (x : Q) : exists s, date_fmt df x = Ok s.
Proof.
  destruct (Z_lt_dec (int x) 0) as [N|N].
  - exists ""%string. apply date_fmt_outside. lia.
  - destruct (Z_lt_dec (int x) (len df)) as [L|L].
    + destruct (nth_error (Dates df) (Z.to_nat (int x))) as [dt|] eqn:E.
      * eexists. apply (date_fmt_inside df x (Z.to_nat (int x)) dt); [lia | exact E].
      * apply nth_error_None in E. unfold Dates in E. rewrite length_map in E.
        unfold len in L. lia.
    + exists ""%string. apply date_fmt_outside. lia.
Qed.

(** C10: the tick formatter never fails, and for a coordinate whose
    integer part is outside [0, n) it answers the empty string. *)
Theorem date_fmt_total (df : DataFrame) (x : Q) :
  (exists s, date_fmt df x = Ok s) /\
  (int x < 0 \/ len df <= int x -> date_fmt df x = Ok ""%string).
Proof.
  split; [apply date_fmt_ok|].
  intros H. apply date_fmt_outside. lia.
Qed.

Lemma date_fmt_total_witness :
  date_fmt (prepare two_days 1) (5 # 2) = Ok ""%string.
Proof.
  apply (date_fmt_total (prepare two_days 1) (5 # 2)).
  right. vm_compute. discriminate.
Defined.

Lemma append_nonempty (s t : string) : t <> ""%string -> (s ++ t)%string <> s.
Proof.
  intros Ht. induction s as [|a s IH]; cbn.
  - exact Ht.
  - intros E. injection E as E. now apply IH.
Qed.

Lemma two_line_differs (dt : Timestamp) : strftime_b_Y dt <> strftime_b dt.
Proof.
  unfold strftime_b_Y. apply append_nonempty. discriminate.
Qed.

(** C1, as the code has it: the label at index 0 is always the two-line
    month+year form, whatever the month; at an index i > 0 it is the
    two-line form exactly when the bar's month is January and the bar at
    i-1 has a different year, and the month abbreviation alone otherwise. *)
Theorem tick_label (df : DataFrame) (x : Q) (i : nat) (r : Row) :
  int x = Z.of_nat i ->
  nth_error df i = Some r ->
  let dt := Date (bar r) in
  strftime_b_Y dt <> strftime_b dt /\
  (i = 0%nat -> date_fmt df x = Ok (strftime_b_Y dt)) /\
  (forall prev, (0 < i)%nat -> nth_error df (i - 1) = Some prev ->
     (date_fmt df x = Ok (strftime_b_Y dt) <->
      month dt = 1 /\ year (Date (bar prev)) <> year dt) /\
     (date_fmt df x = Ok (strftime_b dt) <->
      ~ (month dt = 1 /\ year (Date (bar prev)) <> year dt))).
Proof.
  intros Hx Hr dt.
  assert (Hdt : nth_error (Dates df) i = Some dt)
    by (unfold Dates; now apply (map_nth_error (fun r => Date (bar r)))).
  pose proof (two_line_differs dt) as Hne.
  rewrite (date_fmt_inside df x i dt Hx Hdt).
  split; [exact Hne|]. split.
  - intros ->. reflexivity.
  - intros prev Hi Hprev. destruct i as [|j]; [lia|].
    replace (S j - 1)%nat with j in Hprev by lia.
    assert (Hp : nth j (Dates df) 0 = Date (bar prev)).
    { apply nth_error_nth. unfold Dates.
      now apply (map_nth_error (fun r => Date (bar r))). }
    cbn [shows_year]. rewrite Hp.
    destruct (month dt =? 1) eqn:M;
      [apply Z.eqb_eq in M | apply Z.eqb_neq in M];
      (destruct (year (Date (bar prev)) =? year dt) eqn:Y;
       [apply Z.eqb_eq in Y | apply Z.eqb_neq in Y]); cbn [andb negb];
      (split; split; intros H);
      try tauto; try reflexivity;
      try (injection H as H; congruence);
      try (exfalso; apply H; tauto).
Qed.

Lemma tick_label_witness :
  date_fmt (prepare two_days 1) 0 = Ok (strftime_b_Y (ymd 2024 3 15)).
Proof.
  refine (proj1 (proj2 (tick_label (prepare two_days 1) 0 0
                          (mkRow 0 (quote (ymd 2024 3 15) 10 11) None) _ _)) _);
    reflexivity.
Defined.

(** C1 as stated fails at index 0: the first bar of the series is dated
    2024-03-15, not in January, and its label is "Mar" over "2024", not
    "Mar" alone. *)
Lemma march_label_has_year :
  Dates (prepare two_days 1) = [ymd 2024 3 15; ymd 2024 3 18] /\
  month (ymd 2024 3 15) = 3 /\
  date_fmt (prepare two_days 1) 0 = Ok ("Mar" ++ newline ++ "2024")%string /\
  date_fmt (prepare two_days 1) 0 <> Ok (strftime_b (ymd 2024 3 15)).
Proof.
  repeat split; try (vm_compute; reflexivity).
  vm_compute. discriminate.
Qed.

(** ** Tick placement *)

Lemma iloc_nth {A : Type} (l : list A) (i : Z) (d : A) :
  0 <= i < len l -> iloc l i = Ok (nth (Z.to_nat i) l d).
Proof.
  intros H. destruct (iloc_in_range l i H) as (a & Ea & ->).
  now rewrite (nth_error_nth _ _ d Ea).
Qed.

Lemma In_range (a b i : Z) : 0 <= a -> In i (range a b) <-> a <= i < b.
Proof.
  intros Ha. unfold range. rewrite in_map_iff. split.
  - intros (n & <- & Hn). apply in_seq in Hn. lia.
  - intros H. exists (Z.to_nat i). split; [lia|]. apply in_seq. lia.
Qed.

Lemma range_sorted (a b : Z) : StronglySorted Z.lt (range a b).
Proof.
  unfold range. generalize (Z.to_nat b - Z.to_nat a)%nat as n.
  generalize (Z.to_nat a) as s.
  intros s n. revert s. induction n as [|n IH]; intros s; cbn.
  - constructor.
  - constructor; [apply IH|].
    apply Forall_forall. intros z Hz. apply in_map_iff in Hz.
    destruct Hz as (m & <- & Hm). apply in_seq in Hm. lia.
Qed.

Lemma month_scan_filter (dates : list Timestamp) (idxs : list Z) :
  (forall i, In i idxs -> 1 <= i < len dates) ->
  forall acc,
    month_scan dates idxs acc = Ok (acc ++ filter (month_changes dates) idxs).
Proof.
  induction idxs as [|i rest IH]; intros H acc; cbn [month_scan filter].
  - now rewrite app_nil_r.
  - assert (Hi : 1 <= i < len dates) by (apply H; now left).
    rewrite (iloc_nth dates i 0), (iloc_nth dates (i - 1) 0) by lia.
    cbn [bind]. rewrite IH by (intros j Hj; apply H; now right).
    fold (month_changes dates i).
    destruct (month_changes dates i); [|reflexivity].
    now rewrite <- app_assoc.
Qed.

Lemma month_ticks_eq (df : DataFrame) :
  month_ticks df
  = Ok (match filter (month_changes (Dates df)) (range 1 (len df)) with
        | [] => [0]
        | first :: rest => if 20 <? first then 0 :: first :: rest else first :: rest
        end).
Proof.
  unfold month_ticks. rewrite month_scan_filter.
  - cbn [app bind ret].
    now destruct (filter (month_changes (Dates df)) (range 1 (len df))).
  - intros i Hi. apply In_range in Hi; [|lia]. now rewrite len_Dates.
Qed.

Lemma In_month_starts (df : DataFrame) (i : Z) :
  In i (filter (month_changes (Dates df)) (range 1 (len df)))
  <-> month_boundary df i.
Proof.
  rewrite filter_In, In_range by lia. unfold month_boundary, month_changes.
  now rewrite negb_true_iff, Z.eqb_neq.
Qed.

(** C5, as the code has it: the ticks are the month boundaries, the
    indices i >= 1 with month(date[i]) <> month(date[i-1]), and index 0 is
    a tick as well exactly when none of the indices 1..20 is a month
    boundary (the test is month_starts[0] > 20). *)
Theorem month_ticks_boundaries (df : DataFrame) :
  exists ticks : list Z,
    month_ticks df = Ok ticks /\
    forall i, In i ticks <->
              month_boundary df i \/
              (i = 0 /\ ~ exists j, 1 <= j <= 20 /\ month_boundary df j).
Proof.
  rewrite month_ticks_eq. eexists. split; [reflexivity|].
  pose proof (In_month_starts df) as B.
  assert (Hs : StronglySorted Z.lt
                 (filter (month_changes (Dates df)) (range 1 (len df))))
    by apply StronglySorted_filter, range_sorted.
  destruct (filter (month_changes (Dates df)) (range 1 (len df)))
    as [|first rest].
  - intros i. cbn [In]. split.
    + intros [<-|[]]. right. split; [reflexivity|].
      intros (j & _ & Hj). now apply B in Hj.
    + intros [Hi|[-> _]]; [now apply B in Hi | now left].
  - apply StronglySorted_inv in Hs. destruct Hs as [_ F].
    rewrite Forall_forall in F.
    assert (Hf : month_boundary df first) by (apply B; now left).
    destruct (20 <? first) eqn:E;
      [apply Z.ltb_lt in E | apply Z.ltb_ge in E]; intros i.
    + split.
      * intros [<-|Hi]; [|left; now apply B].
        right. split; [reflexivity|].
        intros (j & Hj & Hb). apply B in Hb. destruct Hb as [<-|Hb]; [lia|].
        specialize (F j Hb). lia.
      * intros [Hi|[-> _]]; [right; now apply B | now left].
    + split.
      * intros Hi. left. now apply B.
      * intros [Hi|[_ Hn]]; [now apply B|].
        exfalso. apply Hn. exists first. split; [|exact Hf].
        destruct Hf as [Hf _]. lia.
Qed.

(** C5 as stated fails: in forty daily bars from 2024-01-12 the first
    month boundary is at index 20, so none lies within the first 20
    positions 0..19, and yet index 0 is not a tick. *)
Lemma boundary_at_index_20 :
  month_ticks (prepare forty_days 1) = Ok [20] /\
  (forall i, 0 <= i <= 19 -> ~ month_boundary (prepare forty_days 1) i) /\
  ~ In 0 [20].
Proof.
  assert (E : filter (month_changes (Dates (prepare forty_days 1)))
                     (range 1 (len (prepare forty_days 1))) = [20])
    by (vm_compute; reflexivity).
  split; [rewrite month_ticks_eq, E; reflexivity|]. split.
  - intros i Hi B. apply In_month_starts in B. rewrite E in B.
    destruct B as [B|[]]. lia.
  - intros [H|[]]. discriminate H.
Qed.

(** ** Trend status and the composed figure *)

Lemma mapM_ok {A B : Type} (f : A -> result B) (l : list A) :
  (forall a, exists b, f a = Ok b) -> exists bs, mapM f l = Ok bs.
Proof.
  intros H. induction l as [|a l [bs IH]]; cbn.
  - now exists [].
  - destruct (H a) as [b ->]. cbn. rewrite IH. cbn. now eexists.
Qed.

Lemma compose_empty (symbol : string) : compose [] symbol = Raise IndexError.
Proof. reflexivity. Qed.

Lemma compose_last (df : DataFrame) (r : Row) (symbol : string) :
  nth_error df (List.length df - 1) = Some r ->
  exists fig,
    compose df symbol = Ok fig /\
    indicator fig
    = (let st := status (Close (bar r)) (SMA r) in
       if nonempty (fst st) then Some st else None).
Proof.
  intros E. unfold compose. rewrite month_ticks_eq. cbn [bind].
  rewrite (iloc_minus1 df r E). cbn [bind].
  match goal with
  | |- context [mapM ?f ?l] =>
      destruct (mapM_ok f l (date_fmt_ok df)) as [labels ->]
  end.
  cbn [bind ret]. eexists. split; reflexivity.
Qed.

Lemma status_cases (c s : Q) :
  ~ (fl s == 0)%Q ->
  let d := fl (fl (fl c - fl s) / fl s) in
  ((d < - fl (5 # 1000))%Q /\
   status c (Some s) = (status_label "Below", DOWN_COLOR)) \/
  ((- fl (5 # 1000) <= d <= fl (5 # 1000))%Q /\
   status c (Some s) = (status_label "On", ON_COLOR)) \/
  ((fl (5 # 1000) < d)%Q /\
   status c (Some s) = (status_label "Above", UP_COLOR)).
Proof.
  intros Hs d. unfold status.
  destruct (Qeq_bool (fl s) 0) eqn:Z0.
  - apply Qeq_bool_iff in Z0. contradiction.
  - unfold diff_pct, lit_0_005. fold d.
    destruct (Qltb d (- fl (5 # 1000))) eqn:B.
    + left. split; [now apply Qltb_lt | reflexivity].
    + apply Qltb_ge in B.
      destruct (Qle_bool (Qabs d) (fl (5 # 1000))) eqn:O.
      * right; left. apply Qle_bool_iff, Qabs_Qle_condition in O.
        split; [exact O | reflexivity].
      * right; right. split; [|reflexivity].
        apply Qnot_le_lt. intros L.
        assert (Qle_bool (Qabs d) (fl (5 # 1000)) = true); [|congruence].
        apply Qle_bool_iff, Qabs_Qle_condition. now split.
Qed.

(** C4: when the last bar's moving average is undefined the figure has no
    trend annotation; otherwise, with diff = (close - average) / average
    as line 192 computes it on the doubles of the last bar (subtraction
    and division each rounded to a double) and 0.005 the double of that
    literal, the annotation is "Below (150) SMA" exactly when
    diff < -0.005, "On (150) SMA" exactly when -0.005 <= diff <= 0.005 and
    "Above (150) SMA" exactly when diff > 0.005. *)
Theorem trend_status (df : DataFrame) (r : Row) (symbol : string) :
  nth_error df (List.length df - 1) = Some r ->
  exists fig,
    compose df symbol = Ok fig /\
    (SMA r = None -> indicator fig = None) /\
    (forall sma, SMA r = Some sma -> ~ (fl sma == 0)%Q ->
       let diff := fl (fl (fl (Close (bar r)) - fl sma) / fl sma) in
       (indicator fig = Some (status_label "Below", DOWN_COLOR)
        <-> (diff < - fl (5 # 1000))%Q) /\
       (indicator fig = Some (status_label "On", ON_COLOR)
        <-> (- fl (5 # 1000) <= diff <= fl (5 # 1000))%Q) /\
       (indicator fig = Some (status_label "Above", UP_COLOR)
        <-> (fl (5 # 1000) < diff)%Q)).
Proof.
  intros E. destruct (compose_last df r symbol E) as (fig & Hc & Hi).
  exists fig. split; [exact Hc|]. rewrite Hi. clear Hc Hi. split.
  - intros ->. reflexivity.
  - intros sma -> Hs diff.
    assert (P : (0 < fl (5 # 1000))%Q) by (vm_compute; reflexivity).
    pose proof (status_cases (Close (bar r)) sma Hs) as C. cbv zeta in C.
    fold diff in C. revert C P.
    generalize (status (Close (bar r)) (Some sma)) as st.
    generalize (fl (5 # 1000)) as t. generalize diff as d. clear.
    intros d t st [[H ->]|[[H ->]|[H ->]]] P; cbv zeta;
      change (nonempty (fst (status_label "Below", DOWN_COLOR))) with true;
      change (nonempty (fst (status_label "On", ON_COLOR))) with true;
      change (nonempty (fst (status_label "Above", UP_COLOR))) with true;
      cbv iota;
      (split; [|split]); (split; [intros X | intros X]);
      first [ exact H | exact eq_refl | discriminate X | exfalso; lra ].
Qed.

(** The last close 0.995 against the average 1.0: the double nearest to
    0.995 lies below it, so diff is -0.0050000000000000044 and the status
    is Below. *)
Lemma trend_status_witness :
  exists fig,
    compose [mkRow 0 (quote (ymd 2024 5 30) 1 (995 # 1000)) (Some 1%Q)] "TQQQ"
    = Ok fig /\
    indicator fig = Some (status_label "Below", DOWN_COLOR).
Proof.
  destruct (trend_status
              [mkRow 0 (quote (ymd 2024 5 30) 1 (995 # 1000)) (Some 1%Q)]
              (mkRow 0 (quote (ymd 2024 5 30) 1 (995 # 1000)) (Some 1%Q))
              "TQQQ" eq_refl) as (fig & Hc & _ & H).
  exists fig. split; [exact Hc|].
  assert (Hnz : ~ (fl 1 == 0)%Q) by (intros Hz; vm_compute in Hz; discriminate Hz).
  apply (proj2 (proj1 (H 1%Q eq_refl Hnz))).
  vm_compute. reflexivity.
Defined.

(** ** Empty series *)

Lemma create_chart_empty (src : source) (years : Q) (symbol output_file : string)
  (fs : Files) :
  series_of src years = Some [] ->
  create_chart src years symbol output_file fs = (fs, Raised IndexError).
Proof.
  unfold series_of, create_chart. destruct (load src) as [raw|]; [|discriminate].
  destruct (prepare_frame_run raw years) as [df|e]; [|discriminate].
  intros E. injection E as ->. cbn [bind]. now rewrite compose_empty.
Qed.

(** C2, as the code has it: when the series is empty no image file is
    written.  A series that is empty after reading the file or after the
    look-back filter makes the run fail with IndexError at the look-up of
    the last bar, before the figure is saved; an empty download is reported
    and the run returns without raising. *)
Theorem empty_series_writes_nothing (src : source) (years : Q)
  (symbol output_file : string) (fs : Files) :
  src = Downloaded [] \/ series_of src years = Some [] ->
  fst (create_chart src years symbol output_file fs) = fs /\
  (series_of src years = Some [] ->
   create_chart src years symbol output_file fs = (fs, Raised IndexError)) /\
  (src = Downloaded [] ->
   create_chart src years symbol output_file fs = (fs, Returned)).
Proof.
  intros H. split; [|split].
  - destruct H as [->|H]; [reflexivity|].
    now rewrite (create_chart_empty _ _ _ _ _ H).
  - apply create_chart_empty.
  - intros ->. reflexivity.
Qed.

Lemma empty_series_writes_nothing_witness :
  fst (create_chart (CsvRows two_days) 0 "TQQQ" "tqqq_chart.png" []) = [] /\
  create_chart (CsvRows two_days) 0 "TQQQ" "tqqq_chart.png" []
  = ([], Raised IndexError).
Proof.
  assert (E : series_of (CsvRows two_days) 0 = Some [])
    by (vm_compute; reflexivity).
  destruct (empty_series_writes_nothing (CsvRows two_days) 0
              "TQQQ" "tqqq_chart.png" [] (or_intror E)) as (H1 & H2 & _).
  split; [exact H1 | exact (H2 E)].
Defined.

(** C2 as stated fails: the run on an empty table, and the run whose
    look-back of 0 years filters every bar out, both stop with Python's
    IndexError; the script has no DataError or EmptySeriesError. *)
Lemma empty_series_raises_IndexError :
  create_chart (CsvRows []) 1 "TQQQ" "tqqq_chart.png" [] = ([], Raised IndexError) /\
  series_of (CsvRows two_days) 0 = Some [] /\
  create_chart (CsvRows two_days) 0 "TQQQ" "tqqq_chart.png" []
  = ([], Raised IndexError) /\
  exn_name IndexError <> "DataError"%string /\
  exn_name IndexError <> "EmptySeriesError"%string.
Proof.
  repeat split; try (vm_compute; reflexivity); discriminate.
Qed.

(** * Further properties of the pipeline *)

(** ** The look-back horizon and the outcome of a run *)

Lemma after_latest (m : Timestamp) (years : Q) :
  after (cutoff_date m years) m = true
  <-> 0 < Timedelta_ns (lookback_days years).
Proof.
  rewrite after_ns, Z.ltb_lt. lia.
Qed.

Lemma sorted_last (l : list Z) (x : Z) :
  StronglySorted Z.le l ->
  nth_error l (List.length l - 1) = Some x ->
  forall a, In a l -> a <= x.
Proof.
  induction 1 as [|a0 t Hs IH F]; intros E a Ha; [contradiction|].
  destruct t as [|a1 t'].
  - cbn in E. injection E as <-. destruct Ha as [->|[]]. lia.
  - assert (E' : nth_error (a1 :: t') (List.length (a1 :: t') - 1) = Some x).
    { cbn [List.length] in *.
      replace (S (S (List.length t')) - 1)%nat with (S (List.length t')) in E by lia.
      replace (S (List.length t') - 1)%nat with (List.length t') by lia.
      exact E. }
    destruct Ha as [<-|Ha]; [|now apply IH].
    rewrite Forall_forall in F.
    apply F. eapply nth_error_In. exact E'.
Qed.

Lemma last_row_exists (df : DataFrame) :
  df <> [] -> exists r, nth_error df (List.length df - 1) = Some r.
Proof.
  intros H. destruct (nth_error df (List.length df - 1)) as [r|] eqn:E.
  - now exists r.
  - apply nth_error_None in E. destruct df; [contradiction | cbn in E; lia].
Qed.

Lemma prepared_bar_in_input (bars : list Bar) (years : Q) (r : Row) :
  In r (prepare bars years) -> In (bar r) bars.
Proof.
  intros H. apply (in_map bar) in H. rewrite (prepare_bars bars years) in H.
  apply filter_In in H. destruct H as [H _].
  exact (Permutation_in _ (sorted_bars_perm bars) H).
Qed.

(** The latest date of a non-empty input and what the look-back test does
    with it. *)
Lemma latest_date (bars : list Bar) (years : Q) :
  bars <> [] ->
  exists m : Timestamp,
    In m (map Date bars) /\
    (forall b, In b bars -> Date b <= m) /\
    Dates (prepare bars years)
    = filter (after (cutoff_date m years))
             (map key (sort_values_Date (from_rows bars))).
Proof.
  intros NE. set (sorted := sort_values_Date (from_rows bars)).
  assert (NS : sorted <> []).
  { intros E. pose proof (sorted_bars_perm bars) as P. fold sorted in P.
    rewrite E in P. apply Permutation_nil in P. contradiction. }
  destruct (add_sma_nonempty lookback_window sorted NS) as [m Em].
  destruct (Date_max_spec _ _ Em) as [Hin Hmax].
  rewrite add_sma_Dates in Hin, Hmax.
  pose proof (sorted_keys_perm bars) as PK. fold sorted in PK.
  exists m. split; [exact (Permutation_in _ PK Hin)|]. split.
  - intros b0 Hb. apply Hmax.
    apply (Permutation_in _ (Permutation_sym PK)). now apply in_map.
  - unfold prepare, prepare_frame. rewrite prepare_w_Dates. fold sorted.
    apply filter_ext. intros d. unfold kept. now rewrite Em.
Qed.

Lemma positive_lookback_keeps_latest (bars : list Bar) (years : Q) :
  bars <> [] -> 0 < Timedelta_ns (lookback_days years) ->
  exists r,
    nth_error (prepare bars years) (List.length (prepare bars years) - 1) = Some r /\
    In (bar r) bars /\
    (forall b, In b bars -> Date b <= Date (bar r)).
Proof.
  intros NE Hy. destruct (latest_date bars years NE) as (m & Hin & Hmax & HD).
  assert (Hm : In m (Dates (prepare bars years))).
  { rewrite HD. apply filter_In. split.
    - exact (Permutation_in _ (Permutation_sym (sorted_keys_perm bars)) Hin).
    - now apply after_latest. }
  assert (NP : prepare bars years <> []).
  { intros E. rewrite E in Hm. contradiction. }
  destruct (last_row_exists _ NP) as [r Er].
  exists r. split; [exact Er|].
  assert (Hr : In r (prepare bars years)) by (eapply nth_error_In; exact Er).
  split; [now apply (prepared_bar_in_input bars years)|].
  assert (Ed : nth_error (Dates (prepare bars years))
                 (List.length (Dates (prepare bars years)) - 1)
               = Some (Date (bar r))).
  { unfold Dates. rewrite length_map.
    now apply (map_nth_error (fun r => Date (bar r))). }
  assert (Hs : StronglySorted Z.le (Dates (prepare bars years))).
  { destruct (prepared_Dates bars years) as [keep ->].
    apply StronglySorted_filter, sort_values_sorted. }
  pose proof (sorted_last _ _ Hs Ed m Hm) as Hle.
  intros b0 Hb. specialize (Hmax b0 Hb). lia.
Qed.

Lemma filter_none {A : Type} (f : A -> bool) (l : list A) :
  (forall x, In x l -> f x = false) -> filter f l = [].
Proof.
  induction l as [|a l IH]; cbn; intros H; [reflexivity|].
  rewrite (H a) by now left. apply IH. intros x Hx. apply H. now right.
Qed.

Lemma nonpositive_lookback_keeps_nothing (bars : list Bar) (years : Q) :
  Timedelta_ns (lookback_days years) <= 0 -> prepare bars years = [].
Proof.
  intros Hy. destruct bars as [|b0 bars']; [reflexivity|].
  destruct (latest_date (b0 :: bars') years) as (m & Hin & Hmax & HD);
    [discriminate|].
  apply (map_eq_nil (fun r => Date (bar r))). fold (Dates (prepare (b0 :: bars') years)).
  rewrite HD.
  assert (F : forall d, In d (map key (sort_values_Date (from_rows (b0 :: bars')))) ->
                        after (cutoff_date m years) d = false).
  { intros d Hd. apply (Permutation_in _ (sorted_keys_perm _)) in Hd.
    apply in_map_iff in Hd. destruct Hd as (b1 & <- & Hb1).
    specialize (Hmax b1 Hb1). rewrite after_ns. apply Z.ltb_ge.
    unfold NS_PER_DAY. lia. }
  now apply filter_none.
Qed.

(** X2: when line 91 does not raise and its Timedelta is at least one
    nanosecond, the prepared series of a non-empty input is not empty and
    its last row is a bar of the input carrying the latest date: the trend
    status is read off the latest bar. *)
Theorem last_row_is_latest (bars : list Bar) (years : Q) (m : Timestamp) :
  latest bars = Some m ->
  line_91 m years = Ok tt ->
  0 < Timedelta_ns (lookback_days years) ->
  prepare_run bars years = Ok (prepare bars years) /\
  exists r,
    nth_error (prepare bars years) (List.length (prepare bars years) - 1) = Some r /\
    In (bar r) bars /\
    Date (bar r) = m.
Proof.
  intros L H HT. split; [exact (prepare_run_ok bars years m L H)|].
  assert (NE : bars <> []) by (intros ->; discriminate L).
  destruct (positive_lookback_keeps_latest bars years NE HT) as (r & Er & Hb & Hm).
  exists r. split; [exact Er|]. split; [exact Hb|].
  destruct (latest_spec _ _ L) as [Hin Hmax].
  apply in_map_iff in Hin. destruct Hin as (b0 & E0 & Hb0).
  specialize (Hm b0 Hb0). specialize (Hmax (Date (bar r)) (in_map Date _ _ Hb)).
  lia.
Qed.

Lemma last_row_is_latest_witness :
  prepare_run daily_from_2023 1 = Ok (prepare daily_from_2023 1) /\
  exists r,
    nth_error (prepare daily_from_2023 1)
              (List.length (prepare daily_from_2023 1) - 1) = Some r /\
    In (bar r) daily_from_2023 /\
    Date (bar r) = ymd 2024 5 30.
Proof.
  apply (last_row_is_latest daily_from_2023 1 (ymd 2024 5 30));
    vm_compute; reflexivity.
Defined.

(** X3: when the Timedelta of line 91 is zero or negative (a look-back of
    zero or fewer years, or a span below one nanosecond) and line 91 does
    not raise, every bar is filtered out and the run stops with IndexError
    at the look-up of the last bar, leaving the files as they were. *)
Theorem nonpositive_lookback_fails (bars : list Bar) (years : Q)
  (symbol output_file : string) (fs : Files) :
  (forall m, latest bars = Some m -> line_91 m years = Ok tt) ->
  Timedelta_ns (lookback_days years) <= 0 ->
  prepare_run bars years = Ok [] /\
  create_chart (CsvRows bars) years symbol output_file fs
  = (fs, Raised IndexError).
Proof.
  intros H HT.
  pose proof (nonpositive_lookback_keeps_nothing bars years HT) as E.
  assert (R : prepare_run bars years = Ok []).
  { unfold prepare_run, prepare_frame_run. rewrite Date_max_latest.
    fold (prepare bars years). rewrite E.
    destruct (latest bars) as [m|] eqn:L; [|reflexivity].
    now rewrite (H m eq_refl). }
  split; [exact R|].
  apply create_chart_empty. unfold series_of. cbn [load].
  fold (prepare_run bars years). now rewrite R.
Qed.

Lemma nonpositive_lookback_fails_witness :
  prepare_run daily_from_2023 (- (1 # 2)) = Ok [] /\
  create_chart (CsvRows daily_from_2023) (- (1 # 2)) "TQQQ" "tqqq_chart.png" []
  = ([], Raised IndexError).
Proof.
  apply (nonpositive_lookback_fails daily_from_2023 (- (1 # 2))).
  - intros m L. vm_compute in L. injection L as <-. vm_compute. reflexivity.
  - vm_compute. discriminate.
Defined.

(** ** The moving average carried by the prepared rows *)

(** The row at position [i] of the prepared series is the bar at position
    [dropped + i] of the sorted input and carries what the rolling mean
    holds there. *)
Lemma prepared_sma (bars : list Bar) (years : Q) (i : nat) (r : Row) :
  nth_error (prepare bars years) i = Some r ->
  nth_error (map snd (sort_values_Date (from_rows bars))) (dropped bars years + i)
  = Some (bar r) /\
  sma_ok lookback_window
    (map Close (map snd (sort_values_Date (from_rows bars))))
    (dropped bars years + i) (SMA r).
Proof.
  intros E.
  destruct (prepare_w_columns lookback_window (sort_values_Date (from_rows bars))
              years (sort_values_sorted _)) as [Cb Cs].
  cbv zeta in Cb, Cs.
  fold (prepare_frame (sort_values_Date (from_rows bars)) years) in Cb, Cs.
  fold (prepare bars years) in Cb, Cs. fold (dropped bars years) in Cb, Cs.
  split.
  - rewrite <- nth_error_skipn, <- Cb. now apply map_nth_error.
  - rewrite map_map. apply rolling_mean_spec; [unfold lookback_window; lia|].
    rewrite <- nth_error_skipn, <- Cs. now apply map_nth_error.
Qed.

Lemma sorted_length (bars : list Bar) :
  List.length (map snd (sort_values_Date (from_rows bars))) = List.length bars.
Proof. apply Permutation_length, sorted_bars_perm. Qed.

(** X4: the moving average has no gap: once a row of the prepared series
    carries an average, every later row carries one too. *)
Theorem average_stays_defined (bars : list Bar) (years : Q) (i j : nat) (r r' : Row) :
  nth_error (prepare bars years) i = Some r ->
  nth_error (prepare bars years) j = Some r' ->
  (i <= j)%nat ->
  SMA r <> None -> SMA r' <> None.
Proof.
  intros Ei Ej Hij Hr.
  destruct (prepared_sma bars years i r Ei) as [_ Hs].
  destruct (prepared_sma bars years j r' Ej) as [_ Hs'].
  unfold sma_ok in *.
  destruct (lookback_window <=? S (dropped bars years + i))%nat eqn:F;
    [|congruence].
  apply Nat.leb_le in F.
  replace (lookback_window <=? S (dropped bars years + j))%nat with true in Hs'
    by (symmetry; apply Nat.leb_le; lia).
  destruct Hs' as (s & -> & _). discriminate.
Qed.

Lemma average_stays_defined_witness : SMA last_row <> None.
Proof.
  assert (Ei : nth_error (prepare daily_from_2023 1) 0
               = Some (mkRow 0 (quote (ymd 2023 6 1) 1 1) (Some (150 # 150)%Q)))
    by (vm_compute; reflexivity).
  assert (Ej : nth_error (prepare daily_from_2023 1) 364 = Some last_row)
    by (vm_compute; reflexivity).
  apply (average_stays_defined daily_from_2023 1 0 364 _ last_row Ei Ej).
  - lia.
  - clear Ei Ej. intros H. discriminate H.
Defined.

(** X5: a table of fewer than 150 bars gives no moving average at all:
    every row of the prepared series carries an undefined average. *)
Theorem short_history_has_no_average (bars : list Bar) (years : Q) (r : Row) :
  (List.length bars < lookback_window)%nat ->
  In r (prepare bars years) -> SMA r = None.
Proof.
  intros Hl Hr. apply In_nth_error in Hr. destruct Hr as [i Ei].
  destruct (prepared_sma bars years i r Ei) as [Hb Hs].
  assert (Li : (dropped bars years + i < List.length bars)%nat).
  { rewrite <- sorted_length. apply nth_error_Some. congruence. }
  unfold sma_ok in Hs.
  replace (lookback_window <=? S (dropped bars years + i))%nat with false in Hs
    by (symmetry; apply Nat.leb_gt; lia).
  exact Hs.
Qed.

Lemma short_history_has_no_average_witness :
  SMA (mkRow 0 (quote (ymd 2024 3 15) 10 11) None) = None.
Proof.
  apply (short_history_has_no_average two_days 1).
  - vm_compute. lia.
  - vm_compute. left. reflexivity.
Defined.

(** ** The composed figure *)

Lemma compose_fields (df : DataFrame) (r : Row) (symbol : string) :
  nth_error df (List.length df - 1) = Some r ->
  exists ticks labels,
    month_ticks df = Ok ticks /\
    mapM (date_fmt df) (map inject_Z ticks) = Ok labels /\
    compose df symbol
    = Ok {| up_candles := up df;
            down_candles := down df;
            sma_line := map (fun r => (index r, SMA r)) df;
            xticks := ticks;
            xticklabels := labels;
            symbol_text := symbol;
            indicator :=
              (let st := status (Close (bar r)) (SMA r) in
               if nonempty (fst st) then Some st else None) |}.
Proof.
  intros E. unfold compose.
  destruct (month_ticks df) as [ticks|e] eqn:T;
    [|rewrite month_ticks_eq in T; discriminate T].
  cbn [bind]. rewrite (iloc_minus1 df r E). cbn [bind].
  destruct (mapM_ok (date_fmt df) (map inject_Z ticks) (date_fmt_ok df))
    as [labels L].
  exists ticks, labels. rewrite L. now repeat split.
Qed.

Lemma status_defined_nonempty (c s : Q) :
  nonempty (fst (status c (Some s))) = true.
Proof.
  unfold status.
  destruct (Qeq_bool (fl s) 0); [destruct (Qltb (fl c) 0); reflexivity|].
  destruct (Qltb (diff_pct c s) (- lit_0_005)); [reflexivity|].
  destruct (Qle_bool (Qabs (diff_pct c s)) lit_0_005); reflexivity.
Qed.

Lemma last_position (bars : list Bar) (years : Q) (r : Row) :
  nth_error (prepare bars years) (List.length (prepare bars years) - 1) = Some r ->
  (dropped bars years + (List.length (prepare bars years) - 1)
   = List.length bars - 1)%nat /\ (0 < List.length bars)%nat.
Proof.
  intros E.
  destruct (prepared_sma bars years _ r E) as [Hb _].
  assert (L : (dropped bars years + (List.length (prepare bars years) - 1)
               < List.length bars)%nat).
  { rewrite <- sorted_length. apply nth_error_Some. congruence. }
  assert (P : (0 < List.length (prepare bars years))%nat).
  { destruct (prepare bars years); [discriminate E | cbn; lia]. }
  pose proof (sorted_length bars) as S'. rewrite length_map in S'.
  unfold dropped in *. lia.
Qed.

(** X6: the figure composed from a prepared series that is not empty
    carries a trend annotation exactly when the table has at least 150
    bars (the rolling mean being taken exactly). *)
Theorem annotation_iff_enough_history (bars : list Bar) (years : Q) (r : Row)
  (symbol : string) :
  nth_error (prepare bars years) (List.length (prepare bars years) - 1) = Some r ->
  exists fig,
    compose (prepare bars years) symbol = Ok fig /\
    (indicator fig <> None <-> (lookback_window <= List.length bars)%nat).
Proof.
  intros Er.
  destruct (compose_fields _ r symbol Er) as (ticks & labels & _ & _ & Hc).
  rewrite Hc. eexists. split; [reflexivity|]. cbn [indicator].
  destruct (prepared_sma bars years _ r Er) as [_ Hs].
  destruct (last_position bars years r Er) as [Hl Hp].
  rewrite Hl in Hs. unfold sma_ok in Hs.
  replace (S (List.length bars - 1)) with (List.length bars) in Hs by lia.
  destruct (lookback_window <=? List.length bars)%nat eqn:F;
    [apply Nat.leb_le in F | apply Nat.leb_gt in F].
  - destruct Hs as (s & -> & _). cbv zeta. rewrite status_defined_nonempty.
    split; [intros _; exact F | discriminate].
  - rewrite Hs. cbn. split; [congruence | lia].
Qed.

Lemma annotation_iff_enough_history_witness :
  exists fig,
    compose (prepare daily_from_2023 1) "TQQQ" = Ok fig /\
    (indicator fig <> None <-> (lookback_window <= List.length daily_from_2023)%nat).
Proof.
  apply (annotation_iff_enough_history daily_from_2023 1 last_row "TQQQ").
  vm_compute. reflexivity.
Defined.

(** ** Bounds on the moving average *)

Lemma Forall_slice {A : Type} (P : A -> Prop) (l : list A) (n m : nat) :
  Forall P l -> Forall P (firstn m (skipn n l)).
Proof.
  intros H. rewrite <- (firstn_skipn n l) in H. apply Forall_app in H.
  destruct H as [_ H]. rewrite <- (firstn_skipn m (skipn n l)) in H.
  apply Forall_app in H. tauto.
Qed.

Lemma Qsum_bounds (lo hi : Q) (l : list Q) :
  Forall (fun x => lo <= x <= hi)%Q l ->
  (inject_Z (Z.of_nat (List.length l)) * lo <= Qsum l
   <= inject_Z (Z.of_nat (List.length l)) * hi)%Q.
Proof.
  induction 1 as [|x l [Hlo Hhi] F [IHlo IHhi]].
  - cbn [List.length Qsum fold_right Z.of_nat]. change (inject_Z 0) with 0%Q. lra.
  - cbn [List.length Qsum fold_right]. fold (Qsum l).
    rewrite Nat2Z.inj_succ. unfold Z.succ. rewrite inject_Z_plus.
    change (inject_Z 1) with 1%Q. lra.
Qed.

Lemma window_mean_bounds (w : nat) (xs : list Q) (j : nat) (lo hi : Q) :
  (0 < w)%nat -> (w <= S j)%nat -> (j < List.length xs)%nat ->
  Forall (fun x => lo <= x <= hi)%Q xs ->
  (lo <= window_mean w xs j <= hi)%Q.
Proof.
  intros Hw Hj Hl F. unfold window_mean.
  pose proof (Qsum_bounds lo hi _ (Forall_slice _ xs (S j - w) w F)) as [Blo Bhi].
  rewrite length_firstn, length_skipn, Nat.min_l in Blo, Bhi by lia.
  assert (P : (0 < inject_Z (Z.of_nat w))%Q).
  { change 0%Q with (inject_Z 0). rewrite <- Zlt_Qlt. lia. }
  split.
  - apply Qle_shift_div_l; [exact P|]. lra.
  - apply Qle_shift_div_r; [exact P|]. lra.
Qed.

(** X7: a moving average carried by a prepared row lies between any two
    bounds that hold for every close of the input. *)
Theorem average_within_closes (bars : list Bar) (years : Q) (r : Row)
  (lo hi s : Q) :
  (forall b, In b bars -> (lo <= Close b <= hi)%Q) ->
  In r (prepare bars years) ->
  SMA r = Some s ->
  (lo <= s <= hi)%Q.
Proof.
  intros B Hr Es. apply In_nth_error in Hr. destruct Hr as [i Ei].
  destruct (prepared_sma bars years i r Ei) as [Hb Hs].
  assert (Li : (dropped bars years + i
                < List.length (map Close (map snd (sort_values_Date (from_rows bars)))))%nat).
  { rewrite length_map. apply nth_error_Some. congruence. }
  unfold sma_ok in Hs.
  destruct (lookback_window <=? S (dropped bars years + i))%nat eqn:F;
    [|congruence].
  apply Nat.leb_le in F. destruct Hs as (s' & E' & Hm).
  rewrite Es in E'. injection E' as <-.
  rewrite Hm. apply window_mean_bounds; try assumption.
  - unfold lookback_window. lia.
  - apply Forall_forall. intros x Hx. apply in_map_iff in Hx.
    destruct Hx as (b0 & <- & Hb0). apply B.
    exact (Permutation_in _ (sorted_bars_perm bars) Hb0).
Qed.

Lemma average_within_closes_witness : (1 <= 150 # 150 <= 1)%Q.
Proof.
  apply (average_within_closes daily_from_2023 1 last_row 1 1 (150 # 150)).
  - intros b0 Hb. unfold daily_from_2023, daily in Hb. apply in_map_iff in Hb.
    destruct Hb as (n & <- & _). cbn. lra.
  - apply (nth_error_In _ 364). vm_compute. reflexivity.
  - reflexivity.
Defined.

(** ** Longer look-backs and reordered tables *)

Lemma filter_filter_impl {A : Type} (f g : A -> bool) (l : list A) :
  (forall x, In x l -> f x = true -> g x = true) ->
  filter f (filter g l) = filter f l.
Proof.
  induction l as [|a l IH]; intros H; [reflexivity|].
  cbn [filter]. destruct (g a) eqn:G.
  - cbn [filter]. destruct (f a); [f_equal|];
      apply IH; intros x Hx; apply H; now right.
  - destruct (f a) eqn:F.
    + rewrite (H a) in G by (auto; now left). discriminate G.
    + apply IH. intros x Hx. apply H. now right.
Qed.

Lemma kept_longer (df : DataFrame) (years1 years2 : Q) (d : Timestamp) :
  (years1 <= years2)%Q -> kept years1 df d = true -> kept years2 df d = true.
Proof.
  intros Hy. unfold kept. destruct (Date_max df) as [m|]; [|reflexivity].
  rewrite !after_ns, !Z.ltb_lt. intros H.
  pose proof (Timedelta_ns_mono years1 years2 Hy). lia.
Qed.

(** X9: a longer look-back only adds earlier bars: the bars prepared with
    [years1 <= years2] are a tail of the bars prepared with [years2]. *)
Theorem longer_lookback_extends (bars : list Bar) (years1 years2 : Q) :
  (years1 <= years2)%Q ->
  exists k : nat,
    map bar (prepare bars years1) = skipn k (map bar (prepare bars years2)).
Proof.
  intros Hy. rewrite !prepare_bars. cbv zeta.
  set (sb := map snd (sort_values_Date (from_rows bars))).
  set (df1 := add_sma lookback_window (sort_values_Date (from_rows bars))).
  rewrite <- (filter_filter_impl (fun b => kept years1 df1 (Date b))
                                 (fun b => kept years2 df1 (Date b)) sb)
    by (intros x _; apply kept_longer, Hy).
  eexists.
  apply (filter_sorted_suffix Date (kept years1 df1)).
  - rewrite <- filter_map_swap. apply StronglySorted_filter.
    unfold sb. rewrite map_map. apply sort_values_sorted.
  - apply kept_upward.
Qed.

Lemma longer_lookback_extends_witness :
  exists k : nat,
    map bar (prepare daily_from_2023 (1 # 2))
    = skipn k (map bar (prepare daily_from_2023 1)).
Proof.
  apply (longer_lookback_extends daily_from_2023 (1 # 2) 1).
  vm_compute. discriminate.
Defined.

Lemma strictly_sorted_perm_eq {A : Type} (k : A -> Z) (l l' : list A) :
  StronglySorted Z.lt (map k l) ->
  StronglySorted Z.lt (map k l') ->
  Permutation l l' -> l = l'.
Proof.
  revert l'. induction l as [|a t IH]; intros l' Hs Hs' P.
  - apply Permutation_nil in P. now subst.
  - destruct l' as [|a' t'];
      [apply Permutation_sym, Permutation_nil in P; discriminate P|].
    cbn [map] in Hs, Hs'.
    apply StronglySorted_inv in Hs. destruct Hs as [Hs F].
    apply StronglySorted_inv in Hs'. destruct Hs' as [Hs' F'].
    rewrite Forall_forall in F, F'.
    assert (a = a').
    { assert (Ha : In a (a' :: t')) by (apply (Permutation_in _ P); now left).
      assert (Ha' : In a' (a :: t))
        by (apply (Permutation_in _ (Permutation_sym P)); now left).
      destruct Ha as [Ha|Ha]; [now symmetry|].
      destruct Ha' as [Ha'|Ha']; [exact Ha'|].
      pose proof (F' _ (in_map k _ _ Ha)).
      pose proof (F _ (in_map k _ _ Ha')). lia. }
    subst a'. f_equal. apply IH; try assumption.
    exact (Permutation_cons_inv P).
Qed.

Lemma Date_max_ext (df df' : DataFrame) :
  Dates df = Dates df' -> Date_max df = Date_max df'.
Proof.
  destruct df as [|r t], df' as [|r' t']; cbn; try discriminate; [reflexivity|].
  intros E. injection E as E1 E2. now rewrite E1, E2.
Qed.

Lemma row_ext (a b : DataFrame) :
  map index a = map index b -> map bar a = map bar b -> map SMA a = map SMA b ->
  a = b.
Proof.
  revert b. induction a as [|r a IH]; intros [|r' b] Ei Eb Es;
    try discriminate; [reflexivity|].
  cbn in Ei, Eb, Es. injection Ei as Ei Ei'. injection Eb as Eb Eb'.
  injection Es as Es Es'.
  destruct r, r'. cbn in *. subst. f_equal. now apply IH.
Qed.

(** On frames in date order, preparation reads the rows and not their
    index labels. *)
Lemma prepare_w_ext (w : nat) (raw raw' : RawFrame) (years : Q) :
  StronglySorted Z.le (map key raw) ->
  map snd raw = map snd raw' ->
  prepare_w w raw years = prepare_w w raw' years.
Proof.
  intros Hs E.
  assert (Ek : map key raw = map key raw').
  { unfold key. now rewrite <- !(map_map snd Date), E. }
  assert (Hs' : StronglySorted Z.le (map key raw')) by now rewrite <- Ek.
  assert (Ec : map (fun p => Close (snd p)) raw = map (fun p => Close (snd p)) raw').
  { now rewrite <- !(map_map snd Close), E. }
  assert (El : List.length raw = List.length raw').
  { now rewrite <- (length_map snd raw), E, length_map. }
  assert (Ed : Dates (prepare_w w raw years) = Dates (prepare_w w raw' years)).
  { rewrite !prepare_w_Dates, <- Ek. apply filter_ext. intros d. unfold kept.
    rewrite (Date_max_ext (add_sma w raw) (add_sma w raw')); [reflexivity|].
    now rewrite !add_sma_Dates. }
  assert (En : List.length (prepare_w w raw years)
               = List.length (prepare_w w raw' years)).
  { unfold Dates in Ed. apply (f_equal (@List.length Timestamp)) in Ed.
    now rewrite !length_map in Ed. }
  destruct (prepare_w_columns w raw years Hs) as [Cb Cs].
  destruct (prepare_w_columns w raw' years Hs') as [Cb' Cs'].
  cbv zeta in Cb, Cs, Cb', Cs'.
  apply row_ext.
  - pose proof (reset_index_labels (lookback_filter years (add_sma w raw))) as L.
    pose proof (reset_index_labels (lookback_filter years (add_sma w raw'))) as L'.
    fold (prepare_w w raw years) in L. fold (prepare_w w raw' years) in L'.
    now rewrite L, L', En.
  - now rewrite Cb, Cb', E, El, En.
  - now rewrite Cs, Cs', Ec, El, En.
Qed.

(** X10: when no date occurs twice, the order of the rows in the table
    does not matter: two tables holding the same bars are prepared into
    the same series. *)
Theorem row_order_irrelevant (bars bars' : list Bar) (years : Q) :
  NoDup (map Date bars) ->
  Permutation bars bars' ->
  prepare bars years = prepare bars' years.
Proof.
  intros N P. unfold prepare, prepare_frame.
  apply prepare_w_ext; [apply sort_values_sorted|].
  assert (N' : NoDup (map Date bars'))
    by exact (Permutation_NoDup (Permutation_map Date P) N).
  apply (strictly_sorted_perm_eq Date).
  - rewrite map_map. fold key. apply strict_of_NoDup; [apply sort_values_sorted|].
    exact (Permutation_NoDup (Permutation_sym (sorted_keys_perm bars)) N).
  - rewrite map_map. fold key. apply strict_of_NoDup; [apply sort_values_sorted|].
    exact (Permutation_NoDup (Permutation_sym (sorted_keys_perm bars')) N').
  - rewrite (sorted_bars_perm bars), (sorted_bars_perm bars'). exact P.
Qed.

Lemma row_order_irrelevant_witness :
  prepare two_days 1
  = prepare [quote (ymd 2024 3 15) 10 11; quote (ymd 2024 3 18) 11 12] 1.
Proof.
  apply (row_order_irrelevant two_days).
  - repeat constructor; cbn; intuition discriminate.
  - apply perm_swap.
Defined.

(** ** The ticks of the x-axis and their labels *)


Lemma month_starts_sorted (df : DataFrame) :
  StronglySorted Z.lt (filter (month_changes (Dates df)) (range 1 (len df))) /\
  Forall (fun t => 1 <= t < len df)
         (filter (month_changes (Dates df)) (range 1 (len df))).
Proof.
  split; [apply StronglySorted_filter, range_sorted|].
  apply Forall_forall. intros t Ht. apply filter_In in Ht.
  destruct Ht as [Ht _]. apply In_range in Ht; lia.
Qed.


(** X11: the tick positions are never empty, strictly increasing, each of
    them 0 or an index 1 <= t < n of the series, and the first one is at
    most 20: the first label is never further than 20 bars from the left
    edge. *)
Theorem ticks_shape (df : DataFrame) :
  exists first rest,
    month_ticks df = Ok (first :: rest) /\
    0 <= first <= 20 /\
    StronglySorted Z.lt (first :: rest) /\
    Forall (fun t => t = 0 \/ 1 <= t < len df) (first :: rest).
Proof.
  rewrite month_ticks_eq.
  destruct (month_starts_sorted df) as [Hs F].
  destruct (filter (month_changes (Dates df)) (range 1 (len df))) as [|m ms].
  - exists 0, []. repeat split; try lia; repeat constructor.
  - assert (Fm : Forall (fun t => t = 0 \/ 1 <= t < len df) (m :: ms)).
    { eapply Forall_impl; [|exact F]. intros t Ht. now right. }
    inversion F as [|? ? Hm _]; subst.
    destruct (20 <? m) eqn:E; [apply Z.ltb_lt in E | apply Z.ltb_ge in E].
    + exists 0, (m :: ms). repeat split; try lia.
      * constructor; [exact Hs|].
        eapply Forall_impl; [|exact F]. intros t Ht. cbn in Ht. lia.
      * constructor; [now left | exact Fm].
    + exists m, ms. repeat split; try lia; assumption.
Qed.




(** ** The name of the image file *)

Lemma take_drop (n : nat) (p : string) : (take n p ++ drop n p)%string = p.
Proof.
  revert p. induction n as [|n IH]; intros [|a t]; cbn; try reflexivity.
  now rewrite IH.
Qed.

Lemma append_nil_r (s : string) : (s ++ "")%string = s.
Proof. induction s as [|a s IH]; cbn; [reflexivity | now rewrite IH]. Qed.

Lemma append_inj_l (s t u : string) : (s ++ t)%string = (s ++ u)%string -> t = u.
Proof.
  induction s as [|a s IH]; cbn; intros E; [exact E|].
  injection E as E. now apply IH.
Qed.

Lemma rfind_ge (c : ascii) (p : string) : -1 <= rfind c p.
Proof.
  induction p as [|a t IH]; cbn; [lia|].
  destruct (0 <=? rfind c t) eqn:E; [apply Z.leb_le in E; lia|].
  destruct (Ascii.eqb a c); lia.
Qed.

Lemma free_of_tail (c a : ascii) (t : string) :
  free_of c (String a t) -> free_of c t.
Proof. intros H n. exact (H (S n)). Qed.

Lemma rfind_free (c : ascii) (p : string) : rfind c p < 0 -> free_of c p.
Proof.
  induction p as [|a t IH]; cbn; intros H n.
  - destruct n; discriminate.
  - destruct (0 <=? rfind c t) eqn:E; [apply Z.leb_le in E; lia|].
    apply Z.leb_gt in E.
    destruct (Ascii.eqb a c) eqn:Eac; [lia|].
    apply Ascii.eqb_neq in Eac.
    destruct n as [|n]; cbn; [congruence | now apply IH].
Qed.

Lemma rfind_lt_drop (c : ascii) (p : string) :
  forall n : nat, rfind c p < Z.of_nat n -> free_of c (drop n p).
Proof.
  induction p as [|a t IH]; intros n H.
  - destruct n; cbn; intros m; destruct m; discriminate.
  - destruct n as [|n]; [now apply rfind_free|].
    cbn [drop]. apply IH. cbn [rfind] in H.
    pose proof (rfind_ge c t).
    destruct (0 <=? rfind c t) eqn:E; [lia|]. apply Z.leb_gt in E. lia.
Qed.

Lemma rfind_drop (c : ascii) (p : string) :
  0 <= rfind c p ->
  exists t, drop (Z.to_nat (rfind c p)) p = String c t /\ free_of c t.
Proof.
  induction p as [|a t IH]; cbn [rfind]; [lia|].
  destruct (0 <=? rfind c t) eqn:E.
  - apply Z.leb_le in E. intros _. destruct (IH E) as (t' & Ed & Hf).
    exists t'. split; [|exact Hf].
    replace (Z.to_nat (rfind c t + 1)) with (S (Z.to_nat (rfind c t))) by lia.
    exact Ed.
  - apply Z.leb_gt in E. destruct (Ascii.eqb a c) eqn:Eac; [|lia].
    apply Ascii.eqb_eq in Eac. subst a. intros _.
    exists t. split; [reflexivity | now apply rfind_free].
Qed.

Lemma skip_leading_dots_cases (p : string) (steps : nat) (i dotIndex : Z) :
  skip_leading_dots p i steps dotIndex = (p, ""%string) \/
  skip_leading_dots p i steps dotIndex
  = (take (Z.to_nat dotIndex) p, drop (Z.to_nat dotIndex) p).
Proof.
  revert i. induction steps as [|n IH]; intros i; cbn; [now left|].
  destruct (String.get (Z.to_nat i) p) as [ch|]; [|now right].
  destruct ch as [[] [] [] [] [] [] [] []]; try (now right). apply IH.
Qed.

Lemma splitext_cases (p : string) :
  splitext p = (p, ""%string) \/
  (rfind "/" p < rfind "." p /\
   splitext p = (take (Z.to_nat (rfind "." p)) p, drop (Z.to_nat (rfind "." p)) p)).
Proof.
  unfold splitext. cbv zeta.
  destruct (rfind "/" p <? rfind "." p) eqn:E; [|now left].
  apply Z.ltb_lt in E.
  destruct (skip_leading_dots_cases p
              (Z.to_nat (rfind "." p - (rfind "/" p + 1)))
              (rfind "/" p + 1) (rfind "." p)) as [->| ->]; [now left | now right].
Qed.

(** How [os.path.splitext] cuts a path: the two parts make up the path,
    and the extension is empty or a dot followed by characters among
    which there is no dot and no slash. *)
Lemma splitext_shape (p : string) :
  (fst (splitext p) ++ snd (splitext p))%string = p /\
  (snd (splitext p) = ""%string \/
   exists t, snd (splitext p) = String "." t /\ free_of "." t /\ free_of "/" t).
Proof.
  destruct (splitext_cases p) as [->|[Hlt ->]]; cbn [fst snd].
  - split; [apply append_nil_r | now left].
  - split; [apply take_drop|]. right.
    pose proof (rfind_ge "/" p) as Hs.
    destruct (rfind_drop "." p) as (t & Ed & Hf); [lia|].
    exists t. split; [exact Ed|]. split; [exact Hf|].
    apply (free_of_tail "/" "."). rewrite <- Ed.
    apply rfind_lt_drop. lia.
Qed.

(** X14: the image never overwrites the data it was drawn from: a run
    leaves the earlier files in place and adds at most the file named
    [output_file_of data_file], which is not [data_file]. *)
Theorem data_file_not_overwritten (data_file : string) (src : source) (years : Q)
  (symbol : string) (fs : Files) :
  output_file_of data_file <> data_file /\
  (fst (create_chart src years symbol (output_file_of data_file) fs) = fs \/
   exists fig,
     fst (create_chart src years symbol (output_file_of data_file) fs)
     = (output_file_of data_file, fig) :: fs).
Proof.
  split.
  - destruct (splitext_shape data_file) as [E H]. unfold output_file_of.
    intros C. rewrite <- E in C at 2. apply append_inj_l in C.
    destruct H as [H|(t & H & _)]; rewrite H in C; discriminate C.
  - unfold create_chart. destruct (load src) as [raw|]; [|now left].
    destruct (df <- prepare_frame_run raw years ;; compose df symbol) as [fig|e];
      [right; now exists fig | now left].
Qed.

(** ** The x coordinates of the figure *)

(** X15: in the figure composed from a prepared series that is not
    empty, the line of the moving average has one point at each of the
    positions 0, 1, ..., n-1, and the candles of the two groups together
    stand at exactly these positions, one candle each. *)
Theorem figure_positions (bars : list Bar) (years : Q) (r : Row) (symbol : string) :
  nth_error (prepare bars years) (List.length (prepare bars years) - 1) = Some r ->
  exists fig,
    compose (prepare bars years) symbol = Ok fig /\
    map fst (sma_line fig) = seq 0 (List.length (prepare bars years)) /\
    Permutation (map index (up_candles fig ++ down_candles fig))
                (seq 0 (List.length (prepare bars years))).
Proof.
  intros Er.
  destruct (compose_fields _ r symbol Er) as (ticks & labels & _ & _ & Hc).
  rewrite Hc. eexists. split; [reflexivity|].
  cbn [sma_line up_candles down_candles].
  assert (L : map index (prepare bars years)
              = seq 0 (List.length (prepare bars years))).
  { unfold prepare, prepare_frame, prepare_w. apply reset_index_labels. }
  split.
  - now rewrite map_map.
  - rewrite <- L. apply Permutation_map. apply (split_by_test is_up).
Qed.

Lemma figure_positions_witness :
  exists fig,
    compose (prepare daily_from_2023 1) "TQQQ" = Ok fig /\
    map fst (sma_line fig) = seq 0 (List.length (prepare daily_from_2023 1)) /\
    Permutation (map index (up_candles fig ++ down_candles fig))
                (seq 0 (List.length (prepare daily_from_2023 1))).
Proof.
  apply (figure_positions daily_from_2023 1 last_row "TQQQ").
  vm_compute. reflexivity.
Defined.
